(** * open-runtimes/types-for-go: the invocation context, its response
      builders and its logger

    The repository ships the same helper in several generations.  Each one
    is embedded in a module of its own:

    - [Main]         src/main.go (package types; every [Logger] method has
                     a value receiver);
    - [Legacy]       src/unnamed/part_000 (package types; the context keeps
                     [Logs] and [Errors] slices, there is no logger);
    - [OpenRuntimes] src/unnamed/part_001, first document (package
                     openruntimes; every [Logger] method but [generateId]
                     has a pointer receiver, responses are built from
                     option closures);
    - [Types]        src/unnamed/part_001, second document (package types;
                     [Write] has a value receiver, [End] a pointer one).

    Go's standard library is not part of the repository.  What the code
    uses of it is modelled in the modules [os], [strconv], [rand] and the
    classes [Encoding] and [Decoding] below.  OverrideNativeLogs is
    embedded for the pointer receiver of part_001's first document, without
    its goroutines and channels: the strings the capture goroutines deliver
    are arguments of [RevertNativeLogs]. *)

From stdpp Require Import base strings gmap list.
From Stdlib Require Import ZArith Lia Ascii DecimalString HexadecimalString.
From Equations Require Import Equations.

Local Open Scope string_scope.
Local Open Scope Z_scope.

(** ** The process: files, standard streams, environment, clock, random source *)

Module os.

(** An open file description.  [data] holds the bytes appended through
    it: the logger opens its files with O_APPEND|O_WRONLY|O_CREATE. *)
Record File := mkFile {
  path : string;
  closed : bool;
  data : string
}.

(** [*os.File]: nil or the address of a file description. *)
Definition handle := option nat.

Inductive error :=
| ErrInvalid   (* method called on a nil *os.File *)
| ErrClosed    (* file already closed *)
| ErrOpen.     (* the path could not be opened *)

Record World := mkWorld {
  files : gmap nat File;
  denied : gset string;          (* paths OpenFile fails on *)
  environ : gmap string string;  (* process environment *)
  now : Z;                       (* time.Now().UnixNano() *)
  entropy : list nat;            (* raw values behind math/rand *)
  Stdout : handle;
  Stderr : handle;
  logOutput : handle             (* target of the package log *)
}.

Definition with_files (fs : gmap nat File) (w : World) : World :=
  mkWorld fs (denied w) (environ w) (now w) (entropy w)
          (Stdout w) (Stderr w) (logOutput w).

Definition with_entropy (e : list nat) (w : World) : World :=
  mkWorld (files w) (denied w) (environ w) (now w) e
          (Stdout w) (Stderr w) (logOutput w).

Definition with_std (out err lg : handle) (w : World) : World :=
  mkWorld (files w) (denied w) (environ w) (now w) (entropy w) out err lg.

(** [os.Getenv]: the empty string when the variable is unset. *)
Definition Getenv (key : string) (w : World) : string :=
  default "" (environ w !! key).

(** [os.OpenFile(name, O_APPEND|O_WRONLY|O_CREATE, perm)]: a new open file
    description on the path.  The file is opened for appending and is
    never read, so what the path may already hold is not looked up: [data]
    of the new description starts empty and counts only the bytes appended
    through this description, after whatever the file held. *)
Definition OpenFile (name : string) (w : World) : (handle * option error) * World :=
  if decide (name ∈ denied w) then ((None, Some ErrOpen), w)
  else
    let fd := fresh (dom (files w)) in
    ((Some fd, None), with_files (<[fd := mkFile name false ""]> (files w)) w).

(** [File.Write]: a nil receiver and a closed file are rejected and
    nothing is written; otherwise the bytes go to the end of the file. *)
Definition Write (f : handle) (b : string) (w : World) : option error * World :=
  match f with
  | None => (Some ErrInvalid, w)
  | Some fd =>
      match files w !! fd with
      | None => (Some ErrInvalid, w)
      | Some file =>
          if closed file then (Some ErrClosed, w)
          else (None,
                with_files (<[fd := mkFile (path file) false (data file +:+ b)]> (files w)) w)
      end
  end.

(** [File.Close]. *)
Definition Close (f : handle) (w : World) : option error * World :=
  match f with
  | None => (Some ErrInvalid, w)
  | Some fd =>
      match files w !! fd with
      | None => (Some ErrInvalid, w)
      | Some file =>
          if closed file then (Some ErrClosed, w)
          else (None,
                with_files (<[fd := mkFile (path file) true (data file)]> (files w)) w)
      end
  end.

(** [os.Pipe()]: two new open file descriptions, the read end and the
    write end of a new pipe, named as Go names them.  Whether the system
    call succeeds is the environment's choice, given as [ok]; [None] is the
    error. *)
Definition Pipe (ok : bool) (w : World) : option (handle * handle) * World :=
  if ok then
    let r := fresh (dom (files w)) in
    let files1 := <[r := mkFile "|0" false ""]> (files w) in
    let wr := fresh (dom files1) in
    (Some (Some r, Some wr), with_files (<[wr := mkFile "|1" false ""]> files1) w)
  else (None, w).

(** The bytes stored behind a handle ([""] for nil). *)
Definition contents (f : handle) (w : World) : string :=
  match f with
  | None => ""
  | Some fd => default "" (data <$> files w !! fd)
  end.

Definition is_open (f : handle) (w : World) : Prop :=
  ∃ fd file, f = Some fd ∧ files w !! fd = Some file ∧ closed file = false.

End os.

(** ** strconv, fmt, time and math/rand as far as the identifiers need them *)

Module strconv.

(** [strconv.FormatInt(i, 16)]: lower-case digits, a leading minus sign
    for a negative number. *)
Definition FormatInt16 (i : Z) : string :=
  HexadecimalString.NilZero.string_of_int (Z.to_hex_int i).

(** The verb [%d] of [fmt.Sprintf]. *)
Definition FormatInt10 (i : Z) : string :=
  DecimalString.NilZero.string_of_int (Z.to_int i).

End strconv.

Module rand.

(** [rand.Intn(n)] for [n > 0]: the next raw value of the source, reduced
    to the interval from 0 up to [n]. *)
Definition Intn (n : nat) (w : os.World) : nat * os.World :=
  match os.entropy w with
  | [] => (0%nat, w)
  | r :: rest => ((r mod n)%nat, os.with_entropy rest w)
  end.

End rand.

(** ** Header maps

    A [map[string]string] is a reference: nil, or the address of a table
    that every copy of the reference shares. *)

Module hmap.

Definition ref := option nat.

Abbreviation Heap := (gmap nat (gmap string string)).

(** [map[string]string{}]: a new empty table. *)
Definition make (h : Heap) : nat * Heap :=
  let a := fresh (dom h) in (a, <[a := ∅]> h).

(** [m[k] = v] on a table that exists. *)
Definition store (a : nat) (k v : string) (h : Heap) : Heap :=
  alter (<[k := v]>) a h.

(** What a reference shows to its holder: nil shows no entry. *)
Definition view (m : ref) (h : Heap) : gmap string string :=
  match m with
  | None => ∅
  | Some a => default ∅ (h !! a)
  end.

End hmap.

(** ** Dynamic values and their renderings *)

(** [type Log struct { Message string }] and its [String] method, the same
    in every generation. *)
Record Log := mkLog { Message : string }.

Definition Log_String (l : Log) : string := Message l.

(** An [interface{}] argument as the type switches of the code see it: a
    string, a [Log], or a value of any other dynamic type. *)
Inductive interface (other : Type) :=
| IString (s : string)
| ILog (l : Log)
| IOther (v : other).
Arguments IString {other} s.
Arguments ILog {other} l.
Arguments IOther {other} v.

(** encoding/json and fmt are taken as given: [json_Marshal] returns
    [None] where [json.Marshal] returns an error. *)
Class Encoding := {
  other : Type;
  json_Marshal : interface other → option string;
  fmt_v : interface other → string;        (* fmt.Sprintf("%v", x) *)
  fmt_sharp_v : interface other → string   (* fmt.Sprintf("%#v", x) *)
}.

Definition LOGGER_TYPE_LOG : string := "log".
Definition LOGGER_TYPE_ERROR : string := "error".

(** [type Logger struct], the same fields in every generation.  The two
    channels carry one string each; a method that receives from them takes
    the received value as an argument. *)
Record Logger := mkLogger {
  Enabled : bool;
  Id : string;
  IncludesNativeInfo : bool;
  StreamLogs : os.handle;
  StreamErrors : os.handle;
  WriterLogs : os.handle;
  WriterErrors : os.handle;
  NativeLogsCache : os.handle;
  NativeErrorsCache : os.handle
}.

(** [Logger{}] *)
Definition Logger_zero : Logger :=
  mkLogger false "" false None None None None None None.

Definition set_Enabled (b : bool) (l : Logger) : Logger :=
  mkLogger b (Id l) (IncludesNativeInfo l) (StreamLogs l) (StreamErrors l)
           (WriterLogs l) (WriterErrors l) (NativeLogsCache l) (NativeErrorsCache l).

Definition set_Id (s : string) (l : Logger) : Logger :=
  mkLogger (Enabled l) s (IncludesNativeInfo l) (StreamLogs l) (StreamErrors l)
           (WriterLogs l) (WriterErrors l) (NativeLogsCache l) (NativeErrorsCache l).

Definition set_IncludesNativeInfo (b : bool) (l : Logger) : Logger :=
  mkLogger (Enabled l) (Id l) b (StreamLogs l) (StreamErrors l)
           (WriterLogs l) (WriterErrors l) (NativeLogsCache l) (NativeErrorsCache l).

Definition set_StreamLogs (f : os.handle) (l : Logger) : Logger :=
  mkLogger (Enabled l) (Id l) (IncludesNativeInfo l) f (StreamErrors l)
           (WriterLogs l) (WriterErrors l) (NativeLogsCache l) (NativeErrorsCache l).

Definition set_StreamErrors (f : os.handle) (l : Logger) : Logger :=
  mkLogger (Enabled l) (Id l) (IncludesNativeInfo l) (StreamLogs l) f
           (WriterLogs l) (WriterErrors l) (NativeLogsCache l) (NativeErrorsCache l).

Definition set_WriterLogs (f : os.handle) (l : Logger) : Logger :=
  mkLogger (Enabled l) (Id l) (IncludesNativeInfo l) (StreamLogs l) (StreamErrors l)
           f (WriterErrors l) (NativeLogsCache l) (NativeErrorsCache l).

Definition set_WriterErrors (f : os.handle) (l : Logger) : Logger :=
  mkLogger (Enabled l) (Id l) (IncludesNativeInfo l) (StreamLogs l) (StreamErrors l)
           (WriterLogs l) f (NativeLogsCache l) (NativeErrorsCache l).

Definition set_NativeLogsCache (f : os.handle) (l : Logger) : Logger :=
  mkLogger (Enabled l) (Id l) (IncludesNativeInfo l) (StreamLogs l) (StreamErrors l)
           (WriterLogs l) (WriterErrors l) f (NativeErrorsCache l).

Definition set_NativeErrorsCache (f : os.handle) (l : Logger) : Logger :=
  mkLogger (Enabled l) (Id l) (IncludesNativeInfo l) (StreamLogs l) (StreamErrors l)
           (WriterLogs l) (WriterErrors l) (NativeLogsCache l) f.

(** The advisory string of [Write]. *)
Definition native_notice : string :=
  "Native logs detected. Use context.Log() or context.Error() for better experience.".

(** The measure that makes the self-call of [Write] terminate: the call is
    made only while the latch is down, and on a receiver whose latch is up. *)
Definition latch_down (l : Logger) (xnative : bool) : nat :=
  if xnative && negb (IncludesNativeInfo l) then 1%nat else 0%nat.

(** ** Requests

    [type ContextRequest struct] of the openruntimes package and
    [type Request struct] of the second document of part_001 have the same
    fields.  [Headers] and [Query] are map references. *)

Module Req.

Record Request := mkRequest {
  bodyBinary : string;
  Headers : hmap.ref;
  Method : string;
  Url : string;
  Path : string;
  Port : Z;
  Scheme : string;
  Host : string;
  QueryString : string;
  Query : hmap.ref
}.

End Req.

(** [json.Unmarshal] into a [map[string]interface{}] is taken as given:
    [None] where it returns an error.  [empty_object] is the literal
    [map[string]interface{}{}]. *)
Class Decoding := {
  object : Type;
  empty_object : object;
  json_Unmarshal : string → option object
}.

(** What [Body] hands back in its [interface{}]: a decoded object, the raw
    bytes, or the text. *)
Inductive body_value `{Decoding} :=
| BodyMap (o : object)
| BodyBytes (b : string)
| BodyString (s : string).

(** The loop of [Body] over [binaryTypes]: true as soon as one of them is
    a prefix of the content type ([strings.HasPrefix]). *)
Fixpoint has_binary_prefix (contentType : string) (binaryTypes : list string) : bool :=
  match binaryTypes with
  | [] => false
  | binaryType :: rest =>
      if String.prefix binaryType contentType then true
      else has_binary_prefix contentType rest
  end.

(** ** src/main.go *)

Module Main.
Section WithEncoding.
Context `{Encoding}.

(** [func (l Logger) Write(message interface{}, xtype string, xnative bool)]:
    the receiver is a copy, so the caller's logger is not changed.  The
    first [match] is the [if xnative && !l.IncludesNativeInfo] of the
    source; it hands the equation of its test to the self-call, which the
    termination measure needs. *)
Equations Write (l : Logger) (message : interface other) (xtype : string)
          (xnative : bool) (w : os.World) : os.World
  by wf (latch_down l xnative) lt :=
Write l message xtype xnative w :=
  let lw :=
    match xnative && negb (IncludesNativeInfo l) as c
          return (xnative && negb (IncludesNativeInfo l) = c → Logger * os.World) with
    | true => fun Hc =>
        let l' := set_IncludesNativeInfo true l in
        (l', Write l' (IString native_notice) xtype xnative w)
    | false => fun _ => (l, w)
    end eq_refl in
  let l := lw.1 in
  let w := lw.2 in
  let stream := StreamLogs l in
  let stream := if decide (xtype = LOGGER_TYPE_ERROR) then StreamErrors l else stream in
  let stringLog :=
    match message with
    | IString s => s
    | ILog log => Log_String log
    | IOther _ =>
        match json_Marshal message with
        | None => fmt_v message
        | Some jsonData => jsonData
        end
    end in
  (os.Write stream stringLog w).2.
Next Obligation.
  unfold latch_down. rewrite Hc. simpl. destruct xnative; simpl; lia.
Qed.

(** [func (l Logger) End()]: value receiver; [l.Enabled = false] is an
    assignment to the copy. *)
Definition End (l : Logger) (w : os.World) : os.World :=
  if negb (Enabled l) then w
  else
    let l := set_Enabled false l in
    let w := (os.Close (StreamLogs l) w).2 in
    let w := (os.Close (StreamErrors l) w).2 in
    w.

(** [func (l Logger) RevertNativeLogs()].  [customLogs] and
    [customErrors] are the strings received from [l.NativeStreamLogs] and
    [l.NativeStreamErrors]. *)
Definition RevertNativeLogs (l : Logger) (customLogs customErrors : string)
           (w : os.World) : os.World :=
  let w := (os.Close (WriterLogs l) w).2 in
  let w := (os.Close (WriterErrors l) w).2 in
  let w := os.with_std (NativeLogsCache l) (NativeErrorsCache l) (NativeErrorsCache l) w in
  let w := if decide (customLogs ≠ "")
           then Write l (IString customLogs) LOGGER_TYPE_LOG true w else w in
  let w := if decide (customErrors ≠ "")
           then Write l (IString customLogs) LOGGER_TYPE_ERROR true w else w in
  w.

(** [func (l Logger) _GenerateId() string] *)
Definition _GenerateId (l : Logger) (w : os.World) : string * os.World :=
  let timestamp := os.now w in
  let '(randomNumber, w) := rand.Intn 1000 w in
  let uniqueID := strconv.FormatInt10 timestamp +:+ strconv.FormatInt10 (Z.of_nat randomNumber) in
  (uniqueID, w).

(** [func NewLogger(status string, id string) (Logger, error)]; the
    error is the text given to [errors.New]. *)
Definition NewLogger (status id : string) (w : os.World)
  : (Logger * option string) * os.World :=
  let logger := set_IncludesNativeInfo false Logger_zero in
  let logger :=
    if decide (status = "" ∨ status = "enabled")
    then set_Enabled true logger else set_Enabled false logger in
  if Enabled logger then
    let serverEnv := os.Getenv "OPEN_RUNTIMES_ENV" w in
    let '(logger, w) :=
      if decide (serverEnv = "development") then (set_Id "dev" logger, w)
      else if decide (id = "") then
        let '(i, w) := _GenerateId logger w in (set_Id i logger, w)
      else (set_Id id logger, w) in
    let '(fileLogs, err, w) := os.OpenFile ("/mnt/logs/" +:+ Id logger +:+ "_logs.log") w in
    match err with
    | Some _ => ((Logger_zero, Some "could not prepare log file"), w)
    | None =>
        let logger := set_StreamLogs fileLogs logger in
        let '(fileErrors, err, w) :=
          os.OpenFile ("/mnt/logs/" +:+ Id logger +:+ "_errors.log") w in
        match err with
        | Some _ => ((Logger_zero, Some "could not prepare log file"), w)
        | None =>
            let logger := set_StreamErrors fileErrors logger in
            ((logger, None), w)
        end
    end
  else ((logger, None), w).

(** [type Context struct]; [Req] and [Res] are left out, [Log] and
    [Error] do not read them. *)
Record Context := mkContext { _Logger : Logger }.

(** [func (c *Context) Log(message interface{})] *)
Definition Log (c : Context) (message : interface other) (w : os.World) : os.World :=
  Write (_Logger c) message LOGGER_TYPE_LOG false w.

(** [func (c *Context) Error(message interface{})] *)
Definition Error (c : Context) (message : interface other) (w : os.World) : os.World :=
  Write (_Logger c) message LOGGER_TYPE_LOG false w.

Record ResponseOutput := mkResponseOutput {
  Body : string;
  StatusCode : Z;
  Headers : hmap.ref
}.

(** [func (r Response) Send(body string, statusCode int, headers map[string]string)] *)
Definition Send (body : string) (statusCode : Z) (headers : hmap.ref)
           (h : hmap.Heap) : ResponseOutput * hmap.Heap :=
  let '(headers, h) :=
    match headers with
    | None => let '(a, h) := hmap.make h in (Some a, h)
    | Some a => (Some a, h)
    end in
  let statusCode := if decide (statusCode = 0) then 200 else statusCode in
  (mkResponseOutput body statusCode headers, h).

(** [func (r Response) Json(bodyStruct interface{}, statusCode int, headers map[string]string)] *)
Definition Json (bodyStruct : interface other) (statusCode : Z) (headers : hmap.ref)
           (h : hmap.Heap) : ResponseOutput * hmap.Heap :=
  let '(headers, h) :=
    match headers with
    | None => hmap.make h
    | Some a => (a, h)
    end in
  let statusCode := if decide (statusCode = 0) then 200 else statusCode in
  let h := hmap.store headers "content-type" "application/json" h in
  match json_Marshal bodyStruct with
  | None => Send "Error encoding JSON." 500 None h
  | Some jsonData =>
      let jsonString := jsonData in
      Send jsonString statusCode (Some headers) h
  end.

(** [func (r Response) Empty() ResponseOutput] *)
Definition Empty (h : hmap.Heap) : ResponseOutput * hmap.Heap :=
  let '(a, h) := hmap.make h in
  Send "" 204 (Some a) h.

(** [func (r Response) Redirect(url string, statusCode int, headers map[string]string)] *)
Definition Redirect (url : string) (statusCode : Z) (headers : hmap.ref)
           (h : hmap.Heap) : ResponseOutput * hmap.Heap :=
  let '(headers, h) :=
    match headers with
    | None => hmap.make h
    | Some a => (a, h)
    end in
  let statusCode := if decide (statusCode = 0) then 301 else statusCode in
  let h := hmap.store headers "location" url h in
  Send "" statusCode (Some headers) h.

End WithEncoding.
End Main.

(** ** src/unnamed/part_000 *)

Module Legacy.
Section WithEncoding.
Context `{Encoding}.

(** [type Context struct]; [Req] and [Res] are left out, [Log] and
    [Error] do not read them. *)
Record Context := mkContext {
  Logs : list string;
  Errors : list string
}.

(** [func (c *Context) Log(message interface{})] *)
Definition Log (c : Context) (message : interface other) : Context :=
  match message with
  | IString s => mkContext (Logs c ++ [s]) (Errors c)
  | ILog log => mkContext (Logs c ++ [Log_String log]) (Errors c)
  | IOther _ =>
      match json_Marshal message with
      | None =>
          let logString := fmt_v message in
          mkContext (Logs c ++ [logString]) (Errors c)
      | Some jsonData =>
          let jsonString := jsonData in
          mkContext (Logs c ++ [jsonString]) (Errors c)
      end
  end.

(** [func (c *Context) Error(message interface{})] *)
Definition Error (c : Context) (message : interface other) : Context :=
  match message with
  | IString s => mkContext (Logs c) (Errors c ++ [s])
  | ILog log => mkContext (Logs c) (Errors c ++ [Log_String log])
  | IOther _ =>
      match json_Marshal message with
      | None =>
          let logString := fmt_v message in
          mkContext (Logs c) (Errors c ++ [logString])
      | Some jsonData =>
          let jsonString := jsonData in
          mkContext (Logs c) (Errors c ++ [jsonString])
      end
  end.

(** [Send], [Json], [Empty] and [Redirect] have the text of src/main.go,
    line for line. *)
Definition Send := Main.Send.
Definition Json := Main.Json.
Definition Empty := Main.Empty.
Definition Redirect := Main.Redirect.

End WithEncoding.
End Legacy.

(** ** src/unnamed/part_001, first document (package openruntimes) *)

Definition newline : string := String "010"%char "".

Module OpenRuntimes.
Section WithEncoding.
Context `{Encoding}.

(** [func (l Logger) generateId(padding int) string] *)
Definition choices : list string :=
  ["0"; "1"; "2"; "3"; "4"; "5"; "6"; "7"; "8"; "9"; "a"; "b"; "c"; "d"; "e"; "f"].

(** The loop [for i := 0; i < padding; i++], run [n] more times. *)
Fixpoint pad_loop (n : nat) (hexString : string) (w : os.World) : string * os.World :=
  match n with
  | O => (hexString, w)
  | S n =>
      let '(r, w) := rand.Intn (length choices) w in
      pad_loop n (hexString +:+ default "" (choices !! r)) w
  end.

Definition generateId (l : Logger) (padding : Z) (w : os.World) : string * os.World :=
  let timestamp := Z.quot (os.now w) 1000 in
  let hexString := strconv.FormatInt16 timestamp in
  if decide (padding > 0) then pad_loop (Z.to_nat padding) hexString w
  else (hexString, w).

(** [func NewLogger(status string, id string) (Logger, error)] *)
Definition NewLogger (status id : string) (w : os.World)
  : (Logger * option string) * os.World :=
  let logger := set_IncludesNativeInfo false Logger_zero in
  let logger :=
    if decide (status = "" ∨ status = "enabled")
    then set_Enabled true logger
    else set_Id "" (set_Enabled false logger) in
  if Enabled logger then
    let serverEnv := os.Getenv "OPEN_RUNTIMES_ENV" w in
    let '(logger, w) :=
      if decide (id = "") then
        if decide (serverEnv = "development") then (set_Id "dev" logger, w)
        else let '(i, w) := generateId logger 7 w in (set_Id i logger, w)
      else (set_Id id logger, w) in
    let '(fileLogs, err, w) := os.OpenFile ("/mnt/logs/" +:+ Id logger +:+ "_logs.log") w in
    match err with
    | Some _ => ((Logger_zero, Some "could not prepare log file"), w)
    | None =>
        let logger := set_StreamLogs fileLogs logger in
        let '(fileErrors, err, w) :=
          os.OpenFile ("/mnt/logs/" +:+ Id logger +:+ "_errors.log") w in
        match err with
        | Some _ => ((Logger_zero, Some "could not prepare log file"), w)
        | None =>
            let logger := set_StreamErrors fileErrors logger in
            ((logger, None), w)
        end
    end
  else ((logger, None), w).

(** [func (l *Logger) Write(message interface{}, xtype string, xnative bool)]:
    pointer receiver; the logger behind the pointer is returned, and the
    self-call works on that same logger. *)
Equations Write (l : Logger) (message : interface other) (xtype : string)
          (xnative : bool) (w : os.World) : Logger * os.World
  by wf (latch_down l xnative) lt :=
Write l message xtype xnative w :=
  let lw :=
    match xnative && negb (IncludesNativeInfo l) as c
          return (xnative && negb (IncludesNativeInfo l) = c → Logger * os.World) with
    | true => fun Hc =>
        let l' := set_IncludesNativeInfo true l in
        Write l' (IString native_notice) xtype xnative w
    | false => fun _ => (l, w)
    end eq_refl in
  let l := lw.1 in
  let w := lw.2 in
  let stream := StreamLogs l in
  let stream := if decide (xtype = LOGGER_TYPE_ERROR) then StreamErrors l else stream in
  let stringLog :=
    match message with
    | IString s => s
    | ILog log => Log_String log
    | IOther _ =>
        match json_Marshal message with
        | None => fmt_v message
        | Some jsonData => jsonData
        end
    end in
  (l, (os.Write stream stringLog w).2).
Next Obligation.
  unfold latch_down. rewrite Hc. simpl. destruct xnative; simpl; lia.
Qed.

(** [func (l *Logger) End()] *)
Definition End (l : Logger) (w : os.World) : Logger * os.World :=
  if negb (Enabled l) then (l, w)
  else
    let l := set_Enabled false l in
    let w := (os.Close (StreamLogs l) w).2 in
    let w := (os.Close (StreamErrors l) w).2 in
    (l, w).

(** [func (l *Logger) OverrideNativeLogs() error]: pointer receiver; the
    logger behind the pointer is returned with the error text.  [okLogs]
    and [okErrors] say whether the two calls of [os.Pipe] succeed.  The two
    goroutines copy what is written to the pipes into the channels; what
    they deliver is an argument of [RevertNativeLogs], so the read ends,
    the channels and the goroutines leave no trace here. *)
Definition OverrideNativeLogs (l : Logger) (okLogs okErrors : bool) (w : os.World)
  : (Logger * option string) * os.World :=
  let l := set_NativeLogsCache (os.Stdout w) l in
  let l := set_NativeErrorsCache (os.Stderr w) l in
  let '(pipeLogs, w) := os.Pipe okLogs w in
  match pipeLogs with
  | None => ((l, Some "could not prepare log capturing"), w)
  | Some (readerLogs, writerLogs) =>
      let l := set_WriterLogs writerLogs l in
      let '(pipeErrors, w) := os.Pipe okErrors w in
      match pipeErrors with
      | None => ((l, Some "could not prepare log capturing"), w)
      | Some (readerErrors, writerErrors) =>
          let l := set_WriterErrors writerErrors l in
          let w := os.with_std writerLogs writerErrors writerErrors w in
          ((l, None), w)
      end
  end.

(** [func (l *Logger) RevertNativeLogs()].  [customLogs] and
    [customErrors] are the strings received from the two channels. *)
Definition RevertNativeLogs (l : Logger) (customLogs customErrors : string)
           (w : os.World) : Logger * os.World :=
  let w := (os.Close (WriterLogs l) w).2 in
  let w := (os.Close (WriterErrors l) w).2 in
  let w := os.with_std (NativeLogsCache l) (NativeErrorsCache l) (NativeErrorsCache l) w in
  let '(l, w) := if decide (customLogs ≠ "")
                 then Write l (IString customLogs) LOGGER_TYPE_LOG true w else (l, w) in
  let '(l, w) := if decide (customErrors ≠ "")
                 then Write l (IString customLogs) LOGGER_TYPE_ERROR true w else (l, w) in
  (l, w).

(** [type Context struct]; [Req] and [Res] are left out. *)
Record Context := mkContext { logger : Logger }.

Definition NewContext (logger : Logger) : Context := mkContext logger.

(** [func (c *Context) Log(message interface{})] *)
Definition Log (c : Context) (message : interface other) (w : os.World)
  : Context * os.World :=
  match message with
  | IString v =>
      let '(l, w) := Write (logger c) (IString (v +:+ newline)) LOGGER_TYPE_LOG false w in
      (mkContext l, w)
  | _ =>
      let '(l, w) := Write (logger c) (IString (fmt_sharp_v message +:+ newline))
                           LOGGER_TYPE_LOG false w in
      (mkContext l, w)
  end.

(** [func (c *Context) Error(message interface{})] *)
Definition Error (c : Context) (message : interface other) (w : os.World)
  : Context * os.World :=
  match message with
  | IString v =>
      let '(l, w) := Write (logger c) (IString (v +:+ newline)) LOGGER_TYPE_ERROR false w in
      (mkContext l, w)
  | _ =>
      let '(l, w) := Write (logger c) (IString (fmt_sharp_v message +:+ newline))
                           LOGGER_TYPE_ERROR false w in
      (mkContext l, w)
  end.

(** [type Response struct].  [enabledSetters] is only ever the table made
    by [New], private to one call, so it is kept by value; a key that is
    not there reads as false. *)
Record Response := mkResponse {
  Body : string;
  StatusCode : Z;
  Headers : hmap.ref;
  enabledSetters : gmap string bool
}.

Definition Response_zero : Response := mkResponse "" 0 None ∅.

Definition enabled (key : string) (o : Response) : bool :=
  default false (enabledSetters o !! key).

(** [func (r Response) New() *Response] *)
Definition New (r : Response) : Response :=
  mkResponse (Body r) (StatusCode r) (Headers r)
             (<["Body" := false]> (<["StatusCode" := false]> (<["Headers" := false]> ∅))).

(** [type ResponseOption func(o *Response)] *)
Definition ResponseOption := Response → Response.

Definition WithHeaders (headers : hmap.ref) : ResponseOption :=
  fun o => mkResponse (Body o) (StatusCode o) headers
                      (<["Headers" := true]> (enabledSetters o)).

Definition WithStatusCode (statusCode : Z) : ResponseOption :=
  fun o => mkResponse (Body o) statusCode (Headers o)
                      (<["StatusCode" := true]> (enabledSetters o)).

(** [for _, opt := range optionalSetters { opt(options) }] *)
Definition apply_setters (optionalSetters : list ResponseOption) (options : Response)
  : Response :=
  fold_left (fun o opt => opt o) optionalSetters options.

(** [func (r ContextResponse) Binary(bytes []byte, optionalSetters ...ResponseOption) Response] *)
Definition Binary (bytes : string) (optionalSetters : list ResponseOption)
           (h : hmap.Heap) : Response * hmap.Heap :=
  let options := apply_setters optionalSetters (New Response_zero) in
  let statusCode := 200 in
  let '(a, h) := hmap.make h in
  let headers := Some a in
  let headers := if enabled "Headers" options then Headers options else headers in
  let statusCode := if enabled "StatusCode" options then StatusCode options else statusCode in
  (mkResponse bytes statusCode headers ∅, h).

Definition Text (body : string) (optionalSetters : list ResponseOption)
           (h : hmap.Heap) : Response * hmap.Heap :=
  Binary body optionalSetters h.

Definition Send (body : string) (optionalSetters : list ResponseOption)
           (h : hmap.Heap) : Response * hmap.Heap :=
  Text body optionalSetters h.

(** [func (r ContextResponse) Json(bodyStruct interface{}, optionalSetters ...ResponseOption) Response];
    [None] is the panic of an assignment into a nil map. *)
Definition Json (bodyStruct : interface other) (optionalSetters : list ResponseOption)
           (h : hmap.Heap) : option (Response * hmap.Heap) :=
  let options := apply_setters optionalSetters (New Response_zero) in
  let '(a, h) := hmap.make h in
  let headers := Some a in
  let headers := if enabled "Headers" options then Headers options else headers in
  match headers with
  | None => None
  | Some a =>
      let h := hmap.store a "content-type" "application/json" h in
      let optionalSetters := (optionalSetters ++ [WithHeaders (Some a)])%list in
      match json_Marshal bodyStruct with
      | None =>
          let optionalSetters := (optionalSetters ++ [WithStatusCode 500])%list in
          Some (Text "Error encoding JSON." optionalSetters h)
      | Some jsonData =>
          let jsonString := jsonData in
          Some (Text jsonString optionalSetters h)
      end
  end.

(** [func (r ContextResponse) Empty() Response] *)
Definition Empty (h : hmap.Heap) : Response * hmap.Heap :=
  Text "" [WithStatusCode 204] h.

(** [func (r ContextResponse) Redirect(url string, optionalSetters ...ResponseOption) Response] *)
Definition Redirect (url : string) (optionalSetters : list ResponseOption)
           (h : hmap.Heap) : option (Response * hmap.Heap) :=
  let options := apply_setters optionalSetters (New Response_zero) in
  let '(a, h) := hmap.make h in
  let headers := Some a in
  let headers := if enabled "Headers" options then Headers options else headers in
  match headers with
  | None => None
  | Some a =>
      let h := hmap.store a "location" url h in
      let optionalSetters := (optionalSetters ++ [WithHeaders (Some a)])%list in
      let optionalSetters := WithStatusCode 301 :: optionalSetters in
      Some (Text "" optionalSetters h)
  end.

End WithEncoding.

(** The methods of [ContextRequest]. *)
Module ContextRequest.
Section WithDecoding.
Context `{Decoding}.

(** [func (r *ContextRequest) SetBodyBinary(bytes []byte)] *)
Definition SetBodyBinary (r : Req.Request) (bytes : string) : Req.Request :=
  Req.mkRequest bytes (Req.Headers r) (Req.Method r) (Req.Url r) (Req.Path r) (Req.Port r)
                (Req.Scheme r) (Req.Host r) (Req.QueryString r) (Req.Query r).

(** [func (r ContextRequest) BodyBinary() []byte] *)
Definition BodyBinary (r : Req.Request) : string := Req.bodyBinary r.

(** [func (r ContextRequest) BodyText() string] *)
Definition BodyText (r : Req.Request) : string := BodyBinary r.

(** [func (r ContextRequest) BodyRaw() string] *)
Definition BodyRaw (r : Req.Request) : string := BodyText r.

(** [func (r ContextRequest) BodyJson(v any) error], for a target [v] that
    points to a [map[string]interface{}]: the decoded object, or the text
    of the error. *)
Definition BodyJson (r : Req.Request) : object + string :=
  let bodyBinary := BodyBinary r in
  match json_Unmarshal bodyBinary with
  | None => inr "could not parse body into a JSON"
  | Some v => inl v
  end.

Definition binaryTypes : list string :=
  ["application/"; "audio/"; "font/"; "image/"; "video/"].

(** [func (r ContextRequest) Body() interface{}] *)
Definition Body (r : Req.Request) (h : hmap.Heap) : body_value :=
  let contentType := default "" (hmap.view (Req.Headers r) h !! "content-type") in
  if decide (contentType = "application/json") then
    if decide (String.length (Req.bodyBinary r) = 0%nat) then BodyMap empty_object
    else
      match BodyJson r with
      | inr _ => BodyMap empty_object
      | inl bodyJson => BodyMap bodyJson
      end
  else if has_binary_prefix contentType binaryTypes then BodyBytes (BodyBinary r)
  else BodyString (BodyText r).

End WithDecoding.
End ContextRequest.
End OpenRuntimes.

(** ** src/unnamed/part_001, second document (package types) *)

Module Types.
Section WithEncoding.
Context `{Encoding}.

(** [generateId] and [NewLogger] have the text of the first document. *)
Definition generateId := OpenRuntimes.generateId.
Definition NewLogger := OpenRuntimes.NewLogger.

(** [func (l Logger) Write] and [func (l Logger) RevertNativeLogs] have
    the text of src/main.go, value receivers included. *)
Definition Write := Main.Write.
Definition RevertNativeLogs := Main.RevertNativeLogs.

(** [func (l *Logger) End()] has the text of the first document, pointer
    receiver included. *)
Definition End := OpenRuntimes.End.

(** [type Context struct]; [Req] and [Res] are left out.  The field is
    [Logger] in the source. *)
Record Context := mkContext { Logger_ : Logger }.

(** [func (c *Context) Log(message interface{})] *)
Definition Log (c : Context) (message : interface other) (w : os.World) : os.World :=
  Write (Logger_ c) message LOGGER_TYPE_LOG false w.

(** [func (c *Context) Error(message interface{})] *)
Definition Error (c : Context) (message : interface other) (w : os.World) : os.World :=
  Write (Logger_ c) message LOGGER_TYPE_ERROR false w.

Record ResponseOutput := mkResponseOutput {
  Body : string;
  StatusCode : Z;
  Headers : hmap.ref
}.

(** [func (r Response) Binary(bytes []byte, statusCode int, headers map[string]string)] *)
Definition Binary (bytes : string) (statusCode : Z) (headers : hmap.ref)
           (h : hmap.Heap) : ResponseOutput * hmap.Heap :=
  let '(headers, h) :=
    match headers with
    | None => let '(a, h) := hmap.make h in (Some a, h)
    | Some a => (Some a, h)
    end in
  let statusCode := if decide (statusCode = 0) then 200 else statusCode in
  (mkResponseOutput bytes statusCode headers, h).

(** [func (r Response) Text(body string, statusCode int, headers map[string]string)] *)
Definition Text (body : string) (statusCode : Z) (headers : hmap.ref)
           (h : hmap.Heap) : ResponseOutput * hmap.Heap :=
  let '(headers, h) :=
    match headers with
    | None => let '(a, h) := hmap.make h in (Some a, h)
    | Some a => (Some a, h)
    end in
  let statusCode := if decide (statusCode = 0) then 200 else statusCode in
  Binary body statusCode headers h.

(** [func (r Response) Send(body string, statusCode int, headers map[string]string)] *)
Definition Send (body : string) (statusCode : Z) (headers : hmap.ref)
           (h : hmap.Heap) : ResponseOutput * hmap.Heap :=
  let '(headers, h) :=
    match headers with
    | None => let '(a, h) := hmap.make h in (Some a, h)
    | Some a => (Some a, h)
    end in
  let statusCode := if decide (statusCode = 0) then 200 else statusCode in
  Text body statusCode headers h.

(** [func (r Response) Json(bodyStruct interface{}, statusCode int, headers map[string]string)] *)
Definition Json (bodyStruct : interface other) (statusCode : Z) (headers : hmap.ref)
           (h : hmap.Heap) : ResponseOutput * hmap.Heap :=
  let '(headers, h) :=
    match headers with
    | None => hmap.make h
    | Some a => (a, h)
    end in
  let statusCode := if decide (statusCode = 0) then 200 else statusCode in
  let h := hmap.store headers "content-type" "application/json" h in
  match json_Marshal bodyStruct with
  | None => Text "Error encoding JSON." 500 None h
  | Some jsonData =>
      let jsonString := jsonData in
      Text jsonString statusCode (Some headers) h
  end.

(** [func (r Response) Empty() ResponseOutput] *)
Definition Empty (h : hmap.Heap) : ResponseOutput * hmap.Heap :=
  let '(a, h) := hmap.make h in
  Text "" 204 (Some a) h.

(** [func (r Response) Redirect(url string, statusCode int, headers map[string]string)] *)
Definition Redirect (url : string) (statusCode : Z) (headers : hmap.ref)
           (h : hmap.Heap) : ResponseOutput * hmap.Heap :=
  let '(headers, h) :=
    match headers with
    | None => hmap.make h
    | Some a => (a, h)
    end in
  let statusCode := if decide (statusCode = 0) then 301 else statusCode in
  let h := hmap.store headers "location" url h in
  Text "" statusCode (Some headers) h.

End WithEncoding.

(** The methods of [Request]. *)
Module Request.
Section WithDecoding.
Context `{Decoding}.

(** [func (r *Request) SetBodyBinary(bytes []byte)] *)
Definition SetBodyBinary (r : Req.Request) (bytes : string) : Req.Request :=
  Req.mkRequest bytes (Req.Headers r) (Req.Method r) (Req.Url r) (Req.Path r) (Req.Port r)
                (Req.Scheme r) (Req.Host r) (Req.QueryString r) (Req.Query r).

(** [func (r Request) BodyBinary() []byte] *)
Definition BodyBinary (r : Req.Request) : string := Req.bodyBinary r.

(** [func (r Request) BodyText() string] *)
Definition BodyText (r : Req.Request) : string := BodyBinary r.

(** [func (r Request) BodyRaw() string] *)
Definition BodyRaw (r : Req.Request) : string := BodyText r.

(** [func (r Request) BodyJson() map[string]interface{}] *)
Definition BodyJson (r : Req.Request) : object :=
  let bodyBinary := BodyBinary r in
  if decide (String.length bodyBinary ≠ 0%nat) then
    match json_Unmarshal bodyBinary with
    | None => empty_object
    | Some body => body
    end
  else empty_object.

Definition binaryTypes : list string :=
  ["application/"; "audio/"; "font/"; "image/"; "video/"].

(** [func (r Request) Body() interface{}] *)
Definition Body (r : Req.Request) (h : hmap.Heap) : body_value :=
  let contentType := default "" (hmap.view (Req.Headers r) h !! "content-type") in
  if decide (contentType = "application/json") then BodyMap (BodyJson r)
  else if has_binary_prefix contentType binaryTypes then BodyBytes (BodyBinary r)
  else BodyString (BodyText r).

End WithDecoding.
End Request.
End Types.

(** ** The specification's resolution rule *)

(** The line the specification predicts for a message: a string is kept
    verbatim, a [Log] is rendered by its display method, anything else is
    serialized to JSON, and where that fails the generic textual rendering
    of the value is taken. *)
Definition predicted_line `{Encoding} (message : interface other) : string :=
  match message with
  | IString s => s
  | ILog l => Log_String l
  | IOther _ =>
      match json_Marshal message with
      | Some jsonText => jsonText
      | None => fmt_v message
      end
  end.

(** The destination a kind selects. *)
Definition target (l : Logger) (xtype : string) : os.handle :=
  if decide (xtype = LOGGER_TYPE_ERROR) then StreamErrors l else StreamLogs l.

(** A native write that finds the latch down. *)
Definition first_native (l : Logger) (xnative : bool) : bool :=
  xnative && negb (IncludesNativeInfo l).

(** ** Sessions of a logger *)

(** The calls a holder of a logger can make on it. *)
Inductive call `{Encoding} :=
| CallWrite (message : interface other) (xtype : string) (xnative : bool)
| CallEnd
| CallRevertNativeLogs (customLogs customErrors : string).

Section SessionDefinitions.
Context `{Encoding}.

(** What one call of [Write] sends to its destination: the notice first
    when this is a native write that finds the latch down, then the line. *)
Definition emitted (l : Logger) (message : interface other) (xnative : bool) : string :=
  (if first_native l xnative then native_notice else "") +:+ predicted_line message.

(** One call on the logger of part_001's first document, whose methods
    share the logger through a pointer. *)
Definition OpenRuntimes_step (lw : Logger * os.World) (c : call) : Logger * os.World :=
  match c with
  | CallWrite message xtype xnative => OpenRuntimes.Write lw.1 message xtype xnative lw.2
  | CallEnd => OpenRuntimes.End lw.1 lw.2
  | CallRevertNativeLogs customLogs customErrors =>
      OpenRuntimes.RevertNativeLogs lw.1 customLogs customErrors lw.2
  end.

Definition OpenRuntimes_run (calls : list call) (lw : Logger * os.World)
  : Logger * os.World :=
  fold_left OpenRuntimes_step calls lw.

(** The state of a logger that can store nothing: once disabled, neither
    of its destinations is an open file. *)
Definition quiet (lw : Logger * os.World) : Prop :=
  Enabled lw.1 = false →
  ¬ os.is_open (StreamLogs lw.1) lw.2 ∧ ¬ os.is_open (StreamErrors lw.1) lw.2.

End SessionDefinitions.

(** The concatenation of the strings of a list. *)
Definition join (parts : list string) : string := foldr String.append "" parts.

(** ** Sequences of calls, and the options of a response by name *)

(** The options the openruntimes package offers, as data. *)
Inductive setter :=
| SetHeaders (headers : hmap.ref)
| SetStatusCode (statusCode : Z).

Definition setter_option (s : setter) : OpenRuntimes.ResponseOption :=
  match s with
  | SetHeaders headers => OpenRuntimes.WithHeaders headers
  | SetStatusCode statusCode => OpenRuntimes.WithStatusCode statusCode
  end.

(** The status code of the last [SetStatusCode] of a list, if there is one. *)
Fixpoint last_status (ss : list setter) : option Z :=
  match ss with
  | [] => None
  | s :: rest =>
      match last_status rest with
      | Some c => Some c
      | None => match s with SetStatusCode c => Some c | SetHeaders _ => None end
      end
  end.

(** The header map of the last [SetHeaders] of a list, if there is one. *)
Fixpoint last_headers (ss : list setter) : option hmap.ref :=
  match ss with
  | [] => None
  | s :: rest =>
      match last_headers rest with
      | Some m => Some m
      | None => match s with SetHeaders m => Some m | SetStatusCode _ => None end
      end
  end.

(** A response of the second document of part_001 read as one of
    src/main.go: the two records have the same fields. *)
Definition as_main (r : Types.ResponseOutput) : Main.ResponseOutput :=
  Main.mkResponseOutput (Types.Body r) (Types.StatusCode r) (Types.Headers r).

Section CallSequences.
Context `{Encoding}.

(** [c.Log(m)] for each message of a list, in order (src/main.go). *)
Definition Main_Log_all (c : Main.Context) (messages : list (interface other))
           (w : os.World) : os.World :=
  fold_left (fun w m => Main.Log c m w) messages w.

(** A list of facade calls on the context of part_000: [true] marks a call
    of [Error], [false] a call of [Log]. *)
Definition Legacy_calls (c : Legacy.Context) (calls : list (bool * interface other))
  : Legacy.Context :=
  fold_left (fun (c : Legacy.Context) (k : bool * interface other) =>
               if k.1 then Legacy.Error c k.2 else Legacy.Log c k.2) calls c.

(** A list of facade calls on the context of part_001's second document:
    [true] marks a call of [Error], [false] a call of [Log]. *)
Definition Types_calls (c : Types.Context) (calls : list (bool * interface other))
           (w : os.World) : os.World :=
  fold_left (fun (w : os.World) (k : bool * interface other) =>
               if k.1 then Types.Error c k.2 w else Types.Log c k.2 w) calls w.

(** Native writes of kind log, one per message, on a logger shared through
    a pointer (first document of part_001). *)
Definition native_log_writes (messages : list (interface other)) : list call :=
  (fun m => CallWrite m LOGGER_TYPE_LOG true) <$> messages.

(** The text the facade of the openruntimes package passes to [Write]. *)
Definition rendered (message : interface other) : string :=
  match message with
  | IString v => v +:+ newline
  | _ => fmt_sharp_v message +:+ newline
  end.

End CallSequences.

(** The last part of [NewLogger], the same text in every generation:
    open the log file, then the error file. *)
Definition open_streams (logger : Logger) (w : os.World)
  : (Logger * option string) * os.World :=
  let '(fileLogs, err, w) := os.OpenFile ("/mnt/logs/" +:+ Id logger +:+ "_logs.log") w in
  match err with
  | Some _ => ((Logger_zero, Some "could not prepare log file"), w)
  | None =>
      let logger := set_StreamLogs fileLogs logger in
      let '(fileErrors, err, w) :=
        os.OpenFile ("/mnt/logs/" +:+ Id logger +:+ "_errors.log") w in
      match err with
      | Some _ => ((Logger_zero, Some "could not prepare log file"), w)
      | None =>
          let logger := set_StreamErrors fileErrors logger in
          ((logger, None), w)
      end
  end.


(** ** Sample data for running the code

    Two dynamic values stand for the serializable and the non-serializable
    shape: an integer, and a channel, which [json.Marshal] rejects. *)

Inductive sample := Num (n : Z) | Chan.

Definition dquote : string := String "034"%char "".

Definition sample_encoding : Encoding := {|
  other := sample;
  json_Marshal := fun x =>
    match x with
    | IString s => Some (dquote +:+ s +:+ dquote)
    | ILog l => Some ("{" +:+ dquote +:+ "Message" +:+ dquote +:+ ":"
                          +:+ dquote +:+ Message l +:+ dquote +:+ "}")
    | IOther (Num n) => Some (strconv.FormatInt10 n)
    | IOther Chan => None
    end;
  fmt_v := fun x =>
    match x with
    | IString s => s
    | ILog l => Message l
    | IOther (Num n) => strconv.FormatInt10 n
    | IOther Chan => "0xc000102000"
    end;
  fmt_sharp_v := fun x =>
    match x with
    | IString s => dquote +:+ s +:+ dquote
    | ILog l => "types.Log{Message:" +:+ dquote +:+ Message l +:+ dquote +:+ "}"
    | IOther (Num n) => strconv.FormatInt10 n
    | IOther Chan => "(chan int)(0xc000102000)"
    end
|}.

(** A sample decoder: it knows the empty JSON object and nothing else. *)
Definition sample_decoding : Decoding := {|
  object := gmap string string;
  empty_object := ∅;
  json_Unmarshal := fun s => if decide (s = "{}") then Some ∅ else None
|}.

(** A request with the given body whose header map is at address 0. *)
Definition sample_request (body : string) : Req.Request :=
  Req.mkRequest body (Some 0%nat) "POST" "http://h/p" "/p" 80 "http" "h" "" None.

(** A memory whose map at address 0 holds the given content type. *)
Definition sample_headers (contentType : string) : gmap nat (gmap string string) :=
  <[0%nat := <["content-type" := contentType]> ∅]> ∅.

(** A process with two open, empty log files at the addresses 1 and 2. *)
Definition sample_files : gmap nat os.File :=
  <[1%nat := os.mkFile "/mnt/logs/x_logs.log" false ""]>
    (<[2%nat := os.mkFile "/mnt/logs/x_errors.log" false ""]> ∅).

Definition sample_world : os.World :=
  os.mkWorld sample_files ∅ ∅ 1700000000000000000 [42%nat] None None None.

(** The same process with OPEN_RUNTIMES_ENV=development. *)
Definition sample_world_dev : os.World :=
  os.mkWorld sample_files ∅ (<["OPEN_RUNTIMES_ENV" := "development"]> ∅)
             1700000000000000000 [42%nat] None None None.

(** An enabled logger on those two files, latch down. *)
Definition sample_logger : Logger :=
  mkLogger true "x" false (Some 1%nat) (Some 2%nat) None None None None.

(** ** Lemmas on the process model *)

Section OsFacts.

Lemma Write_open fd file b w :
  os.files w !! fd = Some file → os.closed file = false →
  os.Write (Some fd) b w =
    (None, os.with_files
             (<[fd := os.mkFile (os.path file) false (os.data file +:+ b)]> (os.files w)) w).
Proof. intros Hf Hc. unfold os.Write. rewrite Hf, Hc. reflexivity. Qed.

Lemma Write_rejected f b w : ¬ os.is_open f w → (os.Write f b w).2 = w.
Proof.
  intros Hn. unfold os.Write. destruct f as [fd|]; [|reflexivity].
  destruct (os.files w !! fd) as [file|] eqn:Hf; [|reflexivity].
  destruct (os.closed file) eqn:Hc; [reflexivity|].
  exfalso. apply Hn. exists fd, file. auto.
Qed.

Lemma string_app_assoc (a b c : string) : (a +:+ b) +:+ c = a +:+ (b +:+ c).
Proof.
  induction a as [|x a IH]; [reflexivity|].
  change (String x ((a +:+ b) +:+ c) = String x (a +:+ (b +:+ c))). by rewrite IH.
Qed.

Lemma string_app_nil_r (a : string) : a +:+ "" = a.
Proof.
  induction a as [|x a IH]; [reflexivity|].
  change (String x (a +:+ "") = String x a). by rewrite IH.
Qed.

(** A match that only carries the equation of its scrutinee along. *)
Lemma if_carrying_eq {T} (c0 : bool) (X Y : T) (b : bool) (e : c0 = b) :
  (match b as c return (c0 = c → T) with
   | true => fun _ => X
   | false => fun _ => Y
   end) e = if b then X else Y.
Proof. destruct b; reflexivity. Qed.

End OsFacts.

(** ** Lemmas on src/main.go *)

Section MainFacts.
Context `{Encoding}.

(** The body of [Write] once the self-call is resolved: the notice, if
    this is a native write with the latch down, then the line. *)
Lemma Main_Write_unfold l message xtype xnative w :
  Main.Write l message xtype xnative w =
    (os.Write (target l xtype) (predicted_line message)
       (if first_native l xnative
        then (os.Write (target l xtype) native_notice w).2 else w)).2.
Proof.
  rewrite Main.Write_equation_1. cbv zeta.
  rewrite if_carrying_eq. unfold first_native, target.
  destruct (xnative && negb (IncludesNativeInfo l)) eqn:Hc; simpl.
  - rewrite Main.Write_equation_1. cbv zeta. rewrite if_carrying_eq.
    simpl. rewrite andb_false_r. simpl.
    destruct message; reflexivity.
  - destruct message; reflexivity.
Qed.

End MainFacts.

(** ** Lemmas on the first document of src/unnamed/part_001 *)

Section OpenRuntimesFacts.
Context `{Encoding}.

(** With the pointer receiver the process is left as by the value
    receiver, and the latch of the caller's logger is raised. *)
Lemma OpenRuntimes_Write_unfold l message xtype xnative w :
  OpenRuntimes.Write l message xtype xnative w =
    (if first_native l xnative then set_IncludesNativeInfo true l else l,
     Main.Write l message xtype xnative w).
Proof.
  rewrite Main_Write_unfold.
  rewrite OpenRuntimes.Write_equation_1. cbv zeta.
  rewrite if_carrying_eq. unfold first_native, target.
  destruct (xnative && negb (IncludesNativeInfo l)) eqn:Hc; simpl.
  - rewrite OpenRuntimes.Write_equation_1. cbv zeta. rewrite if_carrying_eq.
    simpl. rewrite andb_false_r. simpl.
    destruct message; reflexivity.
  - destruct message; reflexivity.
Qed.

End OpenRuntimesFacts.

(** ** The bytes a write stores *)

Section StoredBytes.
Context `{Encoding}.

Lemma Main_Write_open l message xtype xnative w fd file :
  target l xtype = Some fd → os.files w !! fd = Some file → os.closed file = false →
  Main.Write l message xtype xnative w =
    os.with_files
      (<[fd := os.mkFile (os.path file) false (os.data file +:+ emitted l message xnative)]>
         (os.files w)) w.
Proof.
  intros Ht Hf Hc. rewrite Main_Write_unfold, Ht. unfold emitted.
  destruct (first_native l xnative).
  - rewrite (Write_open _ _ _ _ Hf Hc). cbn [snd].
    erewrite Write_open; [|cbn; apply lookup_insert_eq|reflexivity].
    cbn [snd]. unfold os.with_files. cbn.
    rewrite insert_insert_eq, string_app_assoc. reflexivity.
  - rewrite (Write_open _ _ _ _ Hf Hc). reflexivity.
Qed.

Lemma Main_Write_rejected l message xtype xnative w :
  ¬ os.is_open (target l xtype) w → Main.Write l message xtype xnative w = w.
Proof.
  intros Hn. rewrite Main_Write_unfold.
  destruct (first_native l xnative).
  - rewrite (Write_rejected _ native_notice _ Hn). by apply Write_rejected.
  - by apply Write_rejected.
Qed.

Lemma Main_Write_contents l message xtype xnative w :
  os.is_open (target l xtype) w →
  os.contents (target l xtype) (Main.Write l message xtype xnative w) =
    os.contents (target l xtype) w +:+ emitted l message xnative.
Proof.
  intros (fd & file & Ht & Hf & Hc).
  rewrite (Main_Write_open _ _ _ _ _ _ _ Ht Hf Hc), Ht. simpl.
  rewrite lookup_insert_eq, Hf. reflexivity.
Qed.

End StoredBytes.

(** ** C1: the resolution precedence *)

(** C1.  For every message handed to the logger's [Write] (src/main.go and
    the pointer-receiver [Write] of part_001) whose destination is open, the
    bytes that reach the destination end with the line the resolution rule
    predicts: the string itself, the [Log]'s display string, the JSON text,
    or, where JSON serialization fails, the generic rendering.  They are
    preceded by the notice only on a native write that finds the latch down.
    The slice-based [Log] of part_000 appends exactly the predicted line. *)
Theorem C1_write_stores_predicted_line `{Encoding}
    (l : Logger) (message : interface other) (xtype : string) (xnative : bool)
    (w : os.World) (c : Legacy.Context) :
  os.is_open (target l xtype) w →
  os.contents (target l xtype) (Main.Write l message xtype xnative w) =
    os.contents (target l xtype) w
      +:+ (if first_native l xnative then native_notice else "")
      +:+ predicted_line message
  ∧ os.contents (target l xtype) (OpenRuntimes.Write l message xtype xnative w).2 =
    os.contents (target l xtype) w
      +:+ (if first_native l xnative then native_notice else "")
      +:+ predicted_line message
  ∧ Legacy.Logs (Legacy.Log c message) = (Legacy.Logs c ++ [predicted_line message])%list.
Proof.
  intros Ho. split; [|split].
  - by apply Main_Write_contents.
  - rewrite OpenRuntimes_Write_unfold. simpl. by apply Main_Write_contents.
  - destruct message as [s|lg|v]; simpl; try reflexivity.
    destruct (json_Marshal (IOther v)); reflexivity.
Qed.

Lemma sample_errors_open : os.is_open (target sample_logger LOGGER_TYPE_ERROR) sample_world.
Proof.
  exists 2%nat, (os.mkFile "/mnt/logs/x_errors.log" false "").
  split; [reflexivity|]. split; reflexivity.
Defined.

(** C1 on the sample data: a channel written with kind error. *)
Lemma C1_witness :
  os.is_open (target sample_logger LOGGER_TYPE_ERROR) sample_world
  ∧ os.contents (Some 2%nat)
      (Main.Write (H := sample_encoding) sample_logger (IOther Chan)
                  LOGGER_TYPE_ERROR false sample_world) = "0xc000102000".
Proof.
  split; [exact sample_errors_open|].
  exact (proj1 (C1_write_stores_predicted_line (H := sample_encoding)
                  sample_logger (IOther Chan) LOGGER_TYPE_ERROR false sample_world
                  (Legacy.mkContext [] []) sample_errors_open)).
Defined.

(** The four shapes on the sample data. *)
Example four_shapes :
  let run m := os.contents (Some 1%nat)
                 (Main.Write (H := sample_encoding) sample_logger m
                             LOGGER_TYPE_LOG false sample_world) in
  run (IString "plain") = "plain"
  ∧ run (ILog (mkLog "wrapped")) = "wrapped"
  ∧ run (IOther (Num 7)) = "7"
  ∧ run (IOther Chan) = "0xc000102000".
Proof. vm_compute. repeat split. Qed.

(** ** C2: what is appended, and where *)

(** C2, as stated, fails: [Write] adds no newline.  The string "abc"
    written with kind log reaches the log file as the three bytes "abc",
    not as "abc" followed by a newline. *)
Lemma C2_counterexample :
  let w := Main.Write (H := sample_encoding) sample_logger (IString "abc")
                      LOGGER_TYPE_LOG false sample_world in
  os.contents (StreamLogs sample_logger) w = "abc"
  ∧ os.contents (StreamLogs sample_logger) w ≠
      os.contents (StreamLogs sample_logger) sample_world
        +:+ predicted_line (H := sample_encoding) (IString "abc") +:+ newline.
Proof. vm_compute. split; [reflexivity|discriminate]. Qed.

(** C2, amended.  For every message and every kind, [Write] appends the
    resolved line as it is, with no newline added (after the notice on a
    native write that finds the latch down), to the destination selected by
    the kind: [StreamErrors] for kind error, [StreamLogs] for kind log.  No
    other file changes.  This holds for the value receiver of src/main.go
    and for the pointer receiver of part_001. *)
Theorem C2_write_appends_line_to_selected `{Encoding}
    (l : Logger) (message : interface other) (xtype : string) (xnative : bool)
    (w : os.World) (fd : nat) (file : os.File) :
  target l xtype = Some fd →
  os.files w !! fd = Some file →
  os.closed file = false →
  target l LOGGER_TYPE_LOG = StreamLogs l
  ∧ target l LOGGER_TYPE_ERROR = StreamErrors l
  ∧ Main.Write l message xtype xnative w =
      os.with_files
        (<[fd := os.mkFile (os.path file) false
                   (os.data file
                      +:+ (if first_native l xnative then native_notice else "")
                      +:+ predicted_line message)]> (os.files w)) w
  ∧ (OpenRuntimes.Write l message xtype xnative w).2 =
      Main.Write l message xtype xnative w.
Proof.
  intros Ht Hf Hc. split; [reflexivity|]. split; [reflexivity|]. split.
  - by apply Main_Write_open.
  - by rewrite OpenRuntimes_Write_unfold.
Qed.

(** C2, amended, on the sample data: a [Log] written as a first native error. *)
Lemma C2_witness :
  os.contents (Some 2%nat)
    (Main.Write (H := sample_encoding) sample_logger (ILog (mkLog "late"))
                LOGGER_TYPE_ERROR true sample_world)
  = native_notice +:+ "late".
Proof.
  pose proof (C2_write_appends_line_to_selected (H := sample_encoding)
                sample_logger (ILog (mkLog "late")) LOGGER_TYPE_ERROR true sample_world
                2%nat (os.mkFile "/mnt/logs/x_errors.log" false "")
                eq_refl eq_refl eq_refl) as (_ & _ & Hw & _).
  rewrite Hw. reflexivity.
Defined.

(** In the openruntimes package the newline comes from the facade: [Log]
    appends it to the text before it calls [Write]. *)
Lemma OpenRuntimes_Log_adds_newline `{Encoding} (c : OpenRuntimes.Context) (v : string)
    (w : os.World) :
  (OpenRuntimes.Log c (IString v) w).2 =
    Main.Write (OpenRuntimes.logger c) (IString (v +:+ newline)) LOGGER_TYPE_LOG false w.
Proof.
  unfold OpenRuntimes.Log. rewrite OpenRuntimes_Write_unfold. reflexivity.
Qed.

(** ** C3: the facade's Error *)

(** C3 (src/main.go).  [Error] passes LOGGER_TYPE_LOG: the message "boom"
    lands in the log file and the error file stays empty. *)
Theorem C3_main_Error_writes_log_file :
  let w := Main.Error (H := sample_encoding) (Main.mkContext sample_logger)
                      (IString "boom") sample_world in
  os.contents (StreamLogs sample_logger) w = "boom"
  ∧ os.contents (StreamErrors sample_logger) w = "".
Proof. vm_compute. split; reflexivity. Qed.

(** In src/main.go [Error] is [Log]. *)
Lemma Main_Error_is_Log `{Encoding} (c : Main.Context) (message : interface other)
    (w : os.World) :
  Main.Error c message w = Main.Log c message w.
Proof. reflexivity. Qed.

(** The second document of part_001 routes [Error] to the error file and
    [Log] to the log file, both with the native flag off. *)
Lemma Types_Error_writes_error_file `{Encoding} (c : Types.Context)
    (message : interface other) (w : os.World) :
  os.is_open (StreamErrors (Types.Logger_ c)) w →
  os.is_open (StreamLogs (Types.Logger_ c)) w →
  os.contents (StreamErrors (Types.Logger_ c)) (Types.Error c message w) =
    os.contents (StreamErrors (Types.Logger_ c)) w +:+ predicted_line message
  ∧ os.contents (StreamLogs (Types.Logger_ c)) (Types.Log c message w) =
    os.contents (StreamLogs (Types.Logger_ c)) w +:+ predicted_line message.
Proof.
  intros He Hl. unfold Types.Error, Types.Log, Types.Write. split.
  - exact (Main_Write_contents _ message LOGGER_TYPE_ERROR false w He).
  - exact (Main_Write_contents _ message LOGGER_TYPE_LOG false w Hl).
Qed.

(** ** C4: the notice latch *)

(** C4 (src/main.go).  [Write] raises the latch on its copy of the
    receiver only, so the caller's logger never sees it raised: two native
    writes in a row store the notice twice. *)
Theorem C4_main_two_native_writes_two_notices :
  os.contents (StreamLogs sample_logger)
    (Main.Write (H := sample_encoding) sample_logger (IString "b") LOGGER_TYPE_LOG true
       (Main.Write (H := sample_encoding) sample_logger (IString "a") LOGGER_TYPE_LOG true
          sample_world))
  = native_notice +:+ "a" +:+ native_notice +:+ "b".
Proof. vm_compute. reflexivity. Qed.

(** In src/main.go this is so for every logger whose latch is down: each
    native write on it, however many came before, stores the notice and
    then the line. *)
Lemma Main_native_write_always_notifies `{Encoding} (l : Logger)
    (message : interface other) (xtype : string) (w : os.World) :
  IncludesNativeInfo l = false →
  Main.Write l message xtype true w =
    (os.Write (target l xtype) (predicted_line message)
       (os.Write (target l xtype) native_notice w).2).2.
Proof.
  intros Hl. rewrite Main_Write_unfold. unfold first_native. by rewrite Hl.
Qed.

(** With the pointer receiver of part_001 the latch holds: the first
    native write raises it, and a native write on the logger it leaves
    behind stores the line alone. *)
Lemma OpenRuntimes_latch_holds `{Encoding} (l : Logger) (m1 m2 : interface other)
    (x1 x2 : string) (w : os.World) :
  let lw := OpenRuntimes.Write l m1 x1 true w in
  IncludesNativeInfo lw.1 = true
  ∧ (OpenRuntimes.Write lw.1 m2 x2 true lw.2).2 =
      (os.Write (target lw.1 x2) (predicted_line m2) lw.2).2.
Proof.
  cbv zeta. rewrite (OpenRuntimes_Write_unfold l). cbn [fst snd].
  set (l1 := if first_native l true then set_IncludesNativeInfo true l else l).
  assert (Hup : IncludesNativeInfo l1 = true).
  { unfold l1, first_native. destruct (IncludesNativeInfo l) eqn:E; simpl; [exact E|reflexivity]. }
  split; [exact Hup|].
  rewrite OpenRuntimes_Write_unfold, Main_Write_unfold. cbn [snd].
  unfold first_native. rewrite Hup. reflexivity.
Qed.

Example OpenRuntimes_two_native_writes_one_notice :
  let lw := OpenRuntimes.Write (H := sample_encoding) sample_logger (IString "a")
                               LOGGER_TYPE_LOG true sample_world in
  os.contents (StreamLogs sample_logger)
    (OpenRuntimes.Write (H := sample_encoding) lw.1 (IString "b") LOGGER_TYPE_LOG true lw.2).2
  = native_notice +:+ "a" +:+ "b".
Proof. vm_compute. reflexivity. Qed.

(** ** C5: closing twice *)

(** C5 (src/main.go).  [End] has a value receiver: the first call closes
    both files but leaves the caller's logger enabled, so the second call
    does not return early; it calls [Close] on both files again, and both
    calls fail with the error of a file already closed. *)
Theorem C5_main_End_twice_closes_again :
  let w1 := Main.End sample_logger sample_world in
  Enabled sample_logger = true
  ∧ Main.End sample_logger w1 =
      (os.Close (StreamErrors sample_logger) (os.Close (StreamLogs sample_logger) w1).2).2
  ∧ (os.Close (StreamLogs sample_logger) w1).1 = Some os.ErrClosed
  ∧ (os.Close (StreamErrors sample_logger) w1).1 = Some os.ErrClosed.
Proof. vm_compute. repeat split. Qed.

(** With the pointer receiver of part_001 a second [End] is the early
    return: the logger is disabled by the first call and the second changes
    neither the logger nor the process. *)
Lemma OpenRuntimes_End_idempotent (l : Logger) (w : os.World) :
  let lw := OpenRuntimes.End l w in
  Enabled lw.1 = false ∧ OpenRuntimes.End lw.1 lw.2 = lw.
Proof.
  cbv zeta. unfold OpenRuntimes.End.
  destruct (Enabled l) eqn:E; cbn [negb fst snd].
  - split; reflexivity.
  - rewrite E. split; reflexivity.
Qed.

(** ** C6: a disabled sink stores nothing *)

Section Sessions.
Context `{Encoding}.

(** Writing and closing never open a file. *)
Lemma is_open_Write_inv f g b w : os.is_open f (os.Write g b w).2 → os.is_open f w.
Proof.
  unfold os.Write. destruct g as [gd|]; [|done].
  destruct (os.files w !! gd) as [gfile|] eqn:Hg; [|done].
  destruct (os.closed gfile) eqn:Hgc; [done|].
  intros (fd & file & -> & Hf & Hc). cbn in Hf.
  destruct (decide (gd = fd)) as [->|Hne].
  - exists fd, gfile. done.
  - rewrite lookup_insert_ne in Hf by assumption. by exists fd, file.
Qed.

Lemma is_open_Close_inv f g w : os.is_open f (os.Close g w).2 → os.is_open f w.
Proof.
  unfold os.Close. destruct g as [gd|]; [|done].
  destruct (os.files w !! gd) as [gfile|] eqn:Hg; [|done].
  destruct (os.closed gfile) eqn:Hgc; [done|].
  intros (fd & file & -> & Hf & Hc). cbn in Hf.
  destruct (decide (gd = fd)) as [->|Hne].
  - exists fd, gfile. done.
  - rewrite lookup_insert_ne in Hf by assumption. by exists fd, file.
Qed.

Lemma not_open_after_Close f w : ¬ os.is_open f (os.Close f w).2.
Proof.
  unfold os.Close. destruct f as [fd|]; [|by intros (? & ? & ? & _)].
  destruct (os.files w !! fd) as [file|] eqn:Hf.
  - destruct (os.closed file) eqn:Hc.
    + intros (fd' & file' & [= <-] & Hf' & Hc'). cbn in Hf'. congruence.
    + intros (fd' & file' & [= <-] & Hf' & Hc'). cbn in Hf'.
      rewrite lookup_insert_eq in Hf'. by injection Hf' as <-.
  - intros (fd' & file' & [= <-] & Hf' & Hc'). cbn in Hf'. congruence.
Qed.

Lemma is_open_Main_Write_inv f l message xtype xnative w :
  os.is_open f (Main.Write l message xtype xnative w) → os.is_open f w.
Proof.
  rewrite Main_Write_unfold. intros Ho%is_open_Write_inv.
  destruct (first_native l xnative); [by apply is_open_Write_inv in Ho|done].
Qed.

Lemma OpenRuntimes_Write_streams l message xtype xnative w :
  let l' := (OpenRuntimes.Write l message xtype xnative w).1 in
  Enabled l' = Enabled l ∧ StreamLogs l' = StreamLogs l ∧ StreamErrors l' = StreamErrors l.
Proof.
  cbv zeta. rewrite OpenRuntimes_Write_unfold. cbn [fst].
  destruct (first_native l xnative); done.
Qed.

Lemma quiet_Write lw message xtype xnative :
  quiet lw → quiet (OpenRuntimes.Write lw.1 message xtype xnative lw.2).
Proof.
  destruct lw as [l w]. unfold quiet. cbn [fst snd]. intros Hq.
  destruct (OpenRuntimes_Write_streams l message xtype xnative w) as (-> & -> & ->).
  intros He. destruct (Hq He) as [Hl Hr].
  rewrite OpenRuntimes_Write_unfold. cbn [snd].
  split; intros Ho%is_open_Main_Write_inv; auto.
Qed.

Lemma quiet_End lw : quiet lw → quiet (OpenRuntimes.End lw.1 lw.2).
Proof.
  destruct lw as [l w]. unfold quiet, OpenRuntimes.End. cbn [fst snd].
  destruct (Enabled l) eqn:E; cbn [negb fst snd].
  - intros _ _. split.
    + intros Ho%is_open_Close_inv. by apply not_open_after_Close in Ho.
    + apply not_open_after_Close.
  - rewrite E. auto.
Qed.

Lemma quiet_RevertNativeLogs lw customLogs customErrors :
  quiet lw → quiet (OpenRuntimes.RevertNativeLogs lw.1 customLogs customErrors lw.2).
Proof.
  destruct lw as [l w]. cbn [fst snd]. intros Hq. unfold OpenRuntimes.RevertNativeLogs.
  set (w1 := os.with_std _ _ _ _).
  assert (Hq1 : quiet (l, w1)).
  { unfold quiet in *. cbn [fst snd] in *. intros He. destruct (Hq He) as [Hl Hr].
    split; intros (fd & file & Hfd & Hf & Hc);
      [apply Hl|apply Hr];
      apply (is_open_Close_inv _ (WriterLogs l)), (is_open_Close_inv _ (WriterErrors l));
      by exists fd, file. }
  clearbody w1.
  destruct (decide (customLogs ≠ "")).
  - pose proof (quiet_Write (l, w1) (IString customLogs) LOGGER_TYPE_LOG true Hq1) as Hq2.
    cbn [fst snd] in Hq2.
    destruct (OpenRuntimes.Write l (IString customLogs) LOGGER_TYPE_LOG true w1) as [l2 w2].
    destruct (decide (customErrors ≠ "")).
    + pose proof (quiet_Write (l2, w2) (IString customLogs) LOGGER_TYPE_ERROR true Hq2) as Hq3.
      cbn [fst snd] in Hq3.
      by destruct (OpenRuntimes.Write l2 (IString customLogs) LOGGER_TYPE_ERROR true w2).
    + done.
  - destruct (decide (customErrors ≠ "")).
    + pose proof (quiet_Write (l, w1) (IString customLogs) LOGGER_TYPE_ERROR true Hq1) as Hq3.
      cbn [fst snd] in Hq3.
      by destruct (OpenRuntimes.Write l (IString customLogs) LOGGER_TYPE_ERROR true w1).
    + done.
Qed.

Lemma quiet_run calls lw : quiet lw → quiet (OpenRuntimes_run calls lw).
Proof.
  revert lw. induction calls as [|c calls IH]; intros lw Hq; [exact Hq|].
  cbn. apply IH. destruct c; cbn.
  - by apply quiet_Write.
  - by apply quiet_End.
  - by apply quiet_RevertNativeLogs.
Qed.

(** A logger that [NewLogger] returns disabled has nil destinations. *)
Lemma Main_NewLogger_disabled status id w0 l e w1 :
  Main.NewLogger status id w0 = ((l, e), w1) → Enabled l = false →
  StreamLogs l = None ∧ StreamErrors l = None.
Proof.
  unfold Main.NewLogger.
  destruct (decide (status = "" ∨ status = "enabled")); cbn [Enabled set_Enabled].
  - destruct (decide (os.Getenv "OPEN_RUNTIMES_ENV" w0 = "development"));
      [|destruct (decide (id = "")); [destruct (Main._GenerateId _ w0)|]];
      (destruct (os.OpenFile _ _) as [[? [?|]] ?];
       [intros [= <- _ _]; done|];
       destruct (os.OpenFile _ _) as [[? [?|]] ?];
       [intros [= <- _ _]; done|];
       intros [= <- _ _]; done).
  - intros [= <- _ _]. done.
Qed.

Lemma OpenRuntimes_NewLogger_disabled status id w0 l e w1 :
  OpenRuntimes.NewLogger status id w0 = ((l, e), w1) → Enabled l = false →
  StreamLogs l = None ∧ StreamErrors l = None.
Proof.
  unfold OpenRuntimes.NewLogger.
  destruct (decide (status = "" ∨ status = "enabled")); cbn [Enabled set_Enabled set_Id].
  - destruct (decide (id = ""));
      [destruct (decide (os.Getenv "OPEN_RUNTIMES_ENV" w0 = "development"));
         [|destruct (OpenRuntimes.generateId _ _ w0)]|];
      (destruct (os.OpenFile _ _) as [[? [?|]] ?];
       [intros [= <- _ _]; done|];
       destruct (os.OpenFile _ _) as [[? [?|]] ?];
       [intros [= <- _ _]; done|];
       intros [= <- _ _]; done).
  - intros [= <- _ _]. done.
Qed.

End Sessions.

(** C6.  A sink in the disabled state stores nothing.  In src/main.go a
    logger is disabled only by construction, and every [Write] on it leaves
    the process, and so both destinations, as it was.  In part_001 a logger
    built by [NewLogger] and then used through any sequence of [Write],
    [End] and [RevertNativeLogs] calls is disabled by construction or by
    [End]; once it is, every further [Write] leaves the process as it was.
    The code has no test of [Enabled] in [Write]: the bytes are refused by
    the nil or closed file. *)
Theorem C6_disabled_sink_stores_nothing `{Encoding} :
  (∀ status id w0 l w1 message xtype xnative w,
      Main.NewLogger status id w0 = ((l, None), w1) →
      Enabled l = false →
      Main.Write l message xtype xnative w = w)
  ∧ (∀ status id w0 l0 w1 calls l w message xtype xnative,
      OpenRuntimes.NewLogger status id w0 = ((l0, None), w1) →
      OpenRuntimes_run calls (l0, w1) = (l, w) →
      Enabled l = false →
      (OpenRuntimes.Write l message xtype xnative w).2 = w).
Proof.
  split.
  - intros status id w0 l w1 message xtype xnative w Hn He.
    destruct (Main_NewLogger_disabled _ _ _ _ _ _ Hn He) as [Hl Hr].
    apply Main_Write_rejected. unfold target.
    destruct (decide (xtype = LOGGER_TYPE_ERROR)); [rewrite Hr|rewrite Hl];
      by intros (? & ? & ? & _).
  - intros status id w0 l0 w1 calls l w message xtype xnative Hn Hrun He.
    assert (Hq0 : quiet (l0, w1)).
    { intros He0. cbn [fst snd] in *.
      destruct (OpenRuntimes_NewLogger_disabled _ _ _ _ _ _ Hn He0) as [-> ->].
      split; by intros (? & ? & ? & _). }
    pose proof (quiet_run calls _ Hq0) as Hq. rewrite Hrun in Hq.
    destruct (Hq He) as [Hl Hr]. cbn [fst snd] in *.
    rewrite OpenRuntimes_Write_unfold. cbn [snd].
    apply Main_Write_rejected. unfold target.
    destruct (decide (xtype = LOGGER_TYPE_ERROR)); assumption.
Qed.

(** C6 on the sample data: a logger built disabled, and one disabled by
    [End] after a write. *)
Lemma C6_witness :
  (let l := (Main.NewLogger "disabled" "x" sample_world).1.1 in
   Main.Write (H := sample_encoding) l (IString "late") LOGGER_TYPE_LOG true sample_world
   = sample_world)
  ∧ (let lw0 := OpenRuntimes.NewLogger "" "x" sample_world in
     let lw := OpenRuntimes_run (H := sample_encoding)
                 [CallWrite (IString "a") LOGGER_TYPE_LOG false; CallEnd]
                 (lw0.1.1, lw0.2) in
     (OpenRuntimes.Write (H := sample_encoding) lw.1 (IString "late")
                         LOGGER_TYPE_ERROR false lw.2).2 = lw.2).
Proof.
  split.
  - cbv zeta.
    apply (proj1 (C6_disabled_sink_stores_nothing (H := sample_encoding))
             "disabled" "x" sample_world _ sample_world); reflexivity.
  - cbv zeta.
    apply (proj2 (C6_disabled_sink_stores_nothing (H := sample_encoding))
             "" "x" sample_world
             (OpenRuntimes.NewLogger "" "x" sample_world).1.1
             (OpenRuntimes.NewLogger "" "x" sample_world).2
             [CallWrite (IString "a") LOGGER_TYPE_LOG false; CallEnd]);
      vm_compute; reflexivity.
Defined.

(** ** C7: handing the captured buffers to the sink *)

(** C7 (src/main.go; the two documents of part_001 have the same body).
    With the log buffer "out" and the error buffer "err", the error file
    receives the log buffer "out"; the text "err" reaches neither file. *)
Theorem C7_main_Revert_writes_log_buffer_as_error :
  let w := Main.RevertNativeLogs (H := sample_encoding) sample_logger "out" "err"
                                 sample_world in
  os.contents (StreamLogs sample_logger) w = native_notice +:+ "out"
  ∧ os.contents (StreamErrors sample_logger) w = native_notice +:+ "out".
Proof. vm_compute. split; reflexivity. Qed.

(** The error buffer is only tested for emptiness: any two non-empty error
    buffers leave the same process behind. *)
Lemma Main_Revert_ignores_error_text `{Encoding} (l : Logger)
    (customLogs e1 e2 : string) (w : os.World) :
  e1 ≠ "" → e2 ≠ "" →
  Main.RevertNativeLogs l customLogs e1 w = Main.RevertNativeLogs l customLogs e2 w.
Proof.
  intros H1 H2. unfold Main.RevertNativeLogs.
  destruct (decide (e1 ≠ "")); [|done]. destruct (decide (e2 ≠ "")); [|done].
  reflexivity.
Qed.

Lemma OpenRuntimes_Revert_ignores_error_text `{Encoding} (l : Logger)
    (customLogs e1 e2 : string) (w : os.World) :
  e1 ≠ "" → e2 ≠ "" →
  OpenRuntimes.RevertNativeLogs l customLogs e1 w =
    OpenRuntimes.RevertNativeLogs l customLogs e2 w.
Proof.
  intros H1 H2. unfold OpenRuntimes.RevertNativeLogs.
  destruct (decide (e1 ≠ "")); [|done]. destruct (decide (e2 ≠ "")); [|done].
  reflexivity.
Qed.

(** ** C8: the response to a value that cannot be serialized *)

(** C8 (src/main.go; part_000 and the second document of part_001 pass nil
    in the same place).  For a channel, [Json] answers with status 500 and
    the fixed body, but with a new, empty header map: there is no
    content-type entry in the response. *)
Theorem C8_main_Json_failure_has_no_content_type :
  let rh := Main.Json (H := sample_encoding) (IOther Chan) 0 None ∅ in
  Main.StatusCode rh.1 = 500
  ∧ Main.Body rh.1 = "Error encoding JSON."
  ∧ hmap.view (Main.Headers rh.1) rh.2 !! "content-type" = None
  ∧ hmap.view (Main.Headers rh.1) rh.2 = ∅.
Proof. vm_compute. repeat split. Qed.

Section JsonFailure.
Context `{Encoding}.

Lemma fresh_not_allocated (h : hmap.Heap) (a : nat) :
  is_Some (h !! a) → fresh (dom h) ≠ a.
Proof.
  intros Hs Heq. apply elem_of_dom in Hs. rewrite <- Heq in Hs.
  by apply is_fresh in Hs.
Qed.

(** In src/main.go the answer to a failed serialization never carries a
    header. *)
Lemma Main_Json_failure bodyStruct statusCode headers h :
  json_Marshal bodyStruct = None →
  let rh := Main.Json bodyStruct statusCode headers h in
  Main.StatusCode rh.1 = 500
  ∧ Main.Body rh.1 = "Error encoding JSON."
  ∧ hmap.view (Main.Headers rh.1) rh.2 = ∅.
Proof.
  intros Hm. cbv zeta. unfold Main.Json.
  destruct (match headers with None => hmap.make h | Some a => (a, h) end) as [a h1].
  rewrite Hm. unfold Main.Send, hmap.make. cbn.
  split; [reflexivity|]. split; [reflexivity|].
  by rewrite lookup_insert_eq.
Qed.

Lemma apply_setters_snoc2 (opts : list OpenRuntimes.ResponseOption) x y o :
  OpenRuntimes.apply_setters (opts ++ [x] ++ [y])%list o =
    y (x (OpenRuntimes.apply_setters opts o)).
Proof. unfold OpenRuntimes.apply_setters. by rewrite !fold_left_app. Qed.

(** The option-based [Json] of part_001 does what C8 says: where it
    returns, the answer to a failed serialization has status 500, the
    fixed body and the content-type header.  A header map handed in by an
    option must exist in memory, as every non-nil Go map does. *)
Lemma OpenRuntimes_Json_failure bodyStruct optionalSetters h r h' :
  json_Marshal bodyStruct = None →
  (∀ a, OpenRuntimes.Headers
          (OpenRuntimes.apply_setters optionalSetters
             (OpenRuntimes.New OpenRuntimes.Response_zero)) = Some a →
        is_Some (h !! a)) →
  OpenRuntimes.Json bodyStruct optionalSetters h = Some (r, h') →
  OpenRuntimes.StatusCode r = 500
  ∧ OpenRuntimes.Body r = "Error encoding JSON."
  ∧ hmap.view (OpenRuntimes.Headers r) h' !! "content-type" = Some "application/json".
Proof.
  intros Hm Hvalid. unfold OpenRuntimes.Json.
  set (options := OpenRuntimes.apply_setters optionalSetters _) in *.
  unfold hmap.make. cbv zeta.
  set (a0 := fresh (dom h)).
  assert (Hin : ∀ a, (if OpenRuntimes.enabled "Headers" options
                      then OpenRuntimes.Headers options else Some a0) = Some a →
                     is_Some (<[a0 := ∅]> h !! a)).
  { intros a. destruct (OpenRuntimes.enabled "Headers" options).
    - intros Ha. destruct (Hvalid a Ha) as [m Hma].
      destruct (decide (a0 = a)) as [->|Hne]; [rewrite lookup_insert_eq; eauto|].
      rewrite lookup_insert_ne by done. eauto.
    - intros [= <-]. rewrite lookup_insert_eq. eauto. }
  destruct (if OpenRuntimes.enabled "Headers" options
            then OpenRuntimes.Headers options else Some a0) as [a|]; [|done].
  destruct (Hin a eq_refl) as [m Hma]. clear Hin.
  rewrite Hm. intros Hr. apply (inj Some) in Hr.
  unfold OpenRuntimes.Text, OpenRuntimes.Binary in Hr.
  rewrite <- app_assoc in Hr. rewrite apply_setters_snoc2 in Hr.
  unfold hmap.make in Hr. cbn in Hr.
  unfold OpenRuntimes.enabled in Hr. cbn in Hr.
  rewrite lookup_insert_eq in Hr. cbn in Hr.
  rewrite lookup_insert_ne in Hr by done. rewrite lookup_insert_eq in Hr. cbn in Hr.
  injection Hr as <- <-. cbn.
  split; [reflexivity|]. split; [reflexivity|].
  set (h1 := hmap.store a _ _ _).
  assert (Hh1 : h1 !! a = Some (<["content-type" := "application/json"]> m)).
  { unfold h1, hmap.store. rewrite lookup_alter_eq, Hma. reflexivity. }
  rewrite lookup_insert_ne by (apply fresh_not_allocated; eauto).
  rewrite Hh1. cbn. apply lookup_insert_eq.
Qed.

(** Without options it always returns. *)
Lemma OpenRuntimes_Json_returns bodyStruct h :
  is_Some (OpenRuntimes.Json bodyStruct [] h).
Proof.
  unfold OpenRuntimes.Json. cbn.
  destruct (json_Marshal bodyStruct); eauto.
Qed.

End JsonFailure.

(** ** C9: the identifier of a new logger *)

(** C9 (src/main.go).  In a development environment the supplied
    identifier "abc" is dropped for "dev"; and with no identifier, outside
    development, the identifier is the nanosecond clock in decimal followed
    by a decimal number below 1000, not a hexadecimal rendering with
    hexadecimal padding. *)
Theorem C9_main_NewLogger_identifier :
  let dev := Main.NewLogger "" "abc" sample_world_dev in
  let gen := Main.NewLogger "" "" sample_world in
  dev.1.2 = None ∧ Enabled dev.1.1 = true ∧ Id dev.1.1 = "dev"
  ∧ gen.1.2 = None ∧ Enabled gen.1.1 = true ∧ Id gen.1.1 = "170000000000000000042".
Proof. vm_compute. repeat split. Qed.

Section Identifiers.
Context `{Encoding}.

Lemma Intn_lt (n : nat) (w : os.World) : (0 < n)%nat → ((rand.Intn n w).1 < n)%nat.
Proof.
  intros Hn. unfold rand.Intn. destruct (os.entropy w) as [|r rest]; cbn; [lia|].
  apply Nat.mod_upper_bound. lia.
Qed.

Lemma pad_loop_appends (n : nat) (s : string) (w : os.World) :
  ∃ pads : list string,
    length pads = n
    ∧ Forall (λ p, p ∈ OpenRuntimes.choices) pads
    ∧ (OpenRuntimes.pad_loop n s w).1 = s +:+ join pads.
Proof.
  revert s w. induction n as [|n IH]; intros s w.
  - exists []. cbn. split; [done|]. split; [constructor|].
    by rewrite string_app_nil_r.
  - cbn [OpenRuntimes.pad_loop].
    pose proof (Intn_lt (length OpenRuntimes.choices) w) as Hlt.
    destruct (rand.Intn (length OpenRuntimes.choices) w) as [r w'] eqn:Hr.
    cbn [fst] in Hlt.
    destruct (lookup_lt_is_Some_2 OpenRuntimes.choices r) as [c Hc];
      [apply Hlt; cbn; lia|].
    rewrite Hc. cbn [default from_option id].
    destruct (IH (s +:+ c) w') as (pads & Hlen & Hall & Heq).
    exists (c :: pads). split; [cbn; by rewrite Hlen|]. split.
    + constructor; [|done]. by eapply list_elem_of_lookup_2.
    + rewrite Heq. cbn [join foldr]. by rewrite string_app_assoc.
Qed.

(** The [NewLogger] of part_001 does what C9 says. *)
Lemma OpenRuntimes_NewLogger_identifier status id w0 l w1 :
  OpenRuntimes.NewLogger status id w0 = ((l, None), w1) →
  Enabled l = true →
  (id ≠ "" → Id l = id)
  ∧ (id = "" → os.Getenv "OPEN_RUNTIMES_ENV" w0 = "development" → Id l = "dev")
  ∧ (id = "" → os.Getenv "OPEN_RUNTIMES_ENV" w0 ≠ "development" →
     ∃ pads : list string,
       length pads = 7%nat
       ∧ Forall (λ p, p ∈ OpenRuntimes.choices) pads
       ∧ Id l = strconv.FormatInt16 (Z.quot (os.now w0) 1000) +:+ join pads).
Proof.
  unfold OpenRuntimes.NewLogger.
  destruct (decide (status = "" ∨ status = "enabled")); cbn [Enabled set_Enabled set_Id];
    [|intros [= <- _]; done].
  destruct (decide (id = "")) as [Hid|Hid].
  - destruct (decide (os.Getenv "OPEN_RUNTIMES_ENV" w0 = "development")) as [Hdev|Hdev].
    + destruct (os.OpenFile _ _) as [[? [?|]] ?]; [intros [=]|].
      destruct (os.OpenFile _ _) as [[? [?|]] ?]; [intros [=]|].
      intros [= <- _] _. cbn. done.
    + destruct (OpenRuntimes.generateId _ 7 w0) as [i wi] eqn:Hgen.
      destruct (os.OpenFile _ _) as [[? [?|]] ?]; [intros [=]|].
      destruct (os.OpenFile _ _) as [[? [?|]] ?]; [intros [=]|].
      intros [= <- _] _. cbn.
      split; [done|]. split; [done|]. intros _ _.
      destruct (pad_loop_appends 7 (strconv.FormatInt16 (Z.quot (os.now w0) 1000)) w0)
        as (pads & Hlen & Hall & Heq).
      exists pads. split; [done|]. split; [done|].
      rewrite <- Heq. apply (f_equal fst) in Hgen. symmetry. exact Hgen.
  - destruct (os.OpenFile _ _) as [[? [?|]] ?]; [intros [=]|].
    destruct (os.OpenFile _ _) as [[? [?|]] ?]; [intros [=]|].
    intros [= <- _] _. cbn. done.
Qed.

End Identifiers.

Example OpenRuntimes_NewLogger_sample :
  Id (OpenRuntimes.NewLogger "" "abc" sample_world_dev).1.1 = "abc"
  ∧ Id (OpenRuntimes.NewLogger "" "" sample_world_dev).1.1 = "dev"
  ∧ Id (OpenRuntimes.NewLogger "" "" sample_world).1.1
    = strconv.FormatInt16 1700000000000000 +:+ "a000000".
Proof. vm_compute. repeat split. Qed.

(** ** C10: the caller's header map *)





(** * Further properties of the code *)

(** ** The response builders of src/main.go and of the second document of part_001 *)

Section Builders.
Context `{Encoding}.

Lemma Types_Binary_is_Main_Send body statusCode headers (h : gmap nat (gmap string string)) :
  as_main (Types.Binary body statusCode headers h).1 = (Main.Send body statusCode headers h).1
  ∧ (Types.Binary body statusCode headers h).2 = (Main.Send body statusCode headers h).2.
Proof.
  unfold Types.Binary, Main.Send, hmap.make.
  destruct headers; destruct (decide (statusCode = 0)); done.
Qed.

Lemma Types_Text_is_Binary body statusCode headers (h : gmap nat (gmap string string)) :
  Types.Text body statusCode headers h = Types.Binary body statusCode headers h.
Proof.
  unfold Types.Text, Types.Binary, hmap.make.
  destruct headers; destruct (decide (statusCode = 0)) as [->|Hne]; cbn; try done;
    destruct (decide (statusCode = 0)); done.
Qed.

Lemma Types_Send_is_Binary body statusCode headers (h : gmap nat (gmap string string)) :
  Types.Send body statusCode headers h = Types.Binary body statusCode headers h.
Proof.
  rewrite <- Types_Text_is_Binary. unfold Types.Send, hmap.make.
  destruct headers; destruct (decide (statusCode = 0)) as [->|Hne]; cbn; try done;
    rewrite !Types_Text_is_Binary; unfold Types.Binary;
    destruct (decide (statusCode = 0)); done.
Qed.

End Builders.

(** X1.  In the second document of part_001, [Send], [Text] and [Binary]
    each default the status and the header map before they call the next
    one.  The three give the same response and leave the same memory on
    every input: a nil map is replaced once, not three times, and a status
    that was defaulted to 200 stays 200.  That response is the one [Send]
    of src/main.go gives. *)
Theorem X1_Send_Text_Binary_agree (body : string) (statusCode : Z) (headers : hmap.ref)
    (h : gmap nat (gmap string string)) :
  Types.Send body statusCode headers h = Types.Binary body statusCode headers h
  ∧ Types.Text body statusCode headers h = Types.Binary body statusCode headers h
  ∧ as_main (Types.Binary body statusCode headers h).1 = (Main.Send body statusCode headers h).1
  ∧ (Types.Binary body statusCode headers h).2 = (Main.Send body statusCode headers h).2.
Proof.
  split; [apply Types_Send_is_Binary|]. split; [apply Types_Text_is_Binary|].
  apply Types_Binary_is_Main_Send.
Qed.

(** X2.  [Json], [Redirect] and [Empty] of the second document of part_001
    answer as those of src/main.go do, on every input, and leave the same
    header maps in memory: routing the response through [Text] and [Binary]
    changed nothing a caller can see. *)
Theorem X2_builders_agree_across_generations `{Encoding}
    (bodyStruct : interface other) (url : string) (statusCode : Z) (headers : hmap.ref)
    (h : gmap nat (gmap string string)) :
  as_main (Types.Json bodyStruct statusCode headers h).1
    = (Main.Json bodyStruct statusCode headers h).1
  ∧ (Types.Json bodyStruct statusCode headers h).2
    = (Main.Json bodyStruct statusCode headers h).2
  ∧ as_main (Types.Redirect url statusCode headers h).1
    = (Main.Redirect url statusCode headers h).1
  ∧ (Types.Redirect url statusCode headers h).2 = (Main.Redirect url statusCode headers h).2
  ∧ as_main (Types.Empty h).1 = (Main.Empty h).1
  ∧ (Types.Empty h).2 = (Main.Empty h).2.
Proof.
  unfold Types.Json, Main.Json, Types.Redirect, Main.Redirect, Types.Empty, Main.Empty.
  destruct (match headers with None => hmap.make h | Some a => (a, h) end) as [a h1].
  destruct (hmap.make h) as [a0 h0].
  rewrite !Types_Text_is_Binary.
  destruct (json_Marshal bodyStruct); rewrite ?Types_Text_is_Binary;
    repeat split; apply Types_Binary_is_Main_Send.
Qed.

Lemma view_store (a : nat) (k v : string) (m : gmap string string)
    (h : gmap nat (gmap string string)) :
  h !! a = Some m → hmap.view (Some a) (hmap.store a k v h) = <[k := v]> m.
Proof. intros Hm. unfold hmap.view, hmap.store. by rewrite lookup_alter_eq, Hm. Qed.

Lemma store_other (a b : nat) (k v : string) (h : gmap nat (gmap string string)) :
  b ≠ a → hmap.store a k v h !! b = h !! b.
Proof. intros Hne. unfold hmap.store. by rewrite lookup_alter_ne. Qed.

(** X3.  [Redirect] of src/main.go answers with an empty body, with the
    status it was given, or 301 when that is 0, and with the caller's
    header map itself, into which it has written location: what the
    response shows is the caller's headers with location set to the URL (a
    location already there is replaced; nil counts as no headers).  No
    other map in memory changes. *)
Theorem X3_Main_Redirect (url : string) (statusCode : Z) (headers : hmap.ref)
    (h : gmap nat (gmap string string)) :
  (∀ a, headers = Some a → is_Some (h !! a)) →
  let rh := Main.Redirect url statusCode headers h in
  Main.Body rh.1 = ""
  ∧ Main.StatusCode rh.1 = (if decide (statusCode = 0) then 301 else statusCode)
  ∧ hmap.view (Main.Headers rh.1) rh.2 = <["location" := url]> (hmap.view headers h)
  ∧ (∀ a, headers = Some a → Main.Headers rh.1 = Some a)
  ∧ (∀ b, is_Some (h !! b) → headers ≠ Some b → rh.2 !! b = h !! b).
Proof.
  intros Hvalid. cbv zeta. unfold Main.Redirect, Main.Send, hmap.make.
  assert (Hst : ∀ c, (if decide ((if decide (statusCode = 0) then c else statusCode) = 0)
                      then 200 else if decide (statusCode = 0) then c else statusCode)
                     = (if decide (statusCode = 0) then c else statusCode) ∨ c = 0).
  { intros c. destruct (decide (statusCode = 0)) as [->|Hne].
    - destruct (decide (c = 0)); auto.
    - destruct (decide (statusCode = 0)); [done|auto]. }
  destruct headers as [a|]; cbn [fst snd Main.Body Main.StatusCode Main.Headers].
  - destruct (Hvalid a eq_refl) as [m Hm].
    split; [done|]. split; [by destruct (Hst 301)|].
    split; [by rewrite (view_store _ _ _ _ _ Hm); cbn; rewrite Hm|].
    split; [by intros ? [= <-]|].
    intros b _ Hb. apply store_other. congruence.
  - split; [done|]. split; [by destruct (Hst 301)|].
    split.
    { rewrite (view_store _ _ _ ∅) by apply lookup_insert_eq. done. }
    split; [done|].
    intros b Hb _. rewrite store_other by (by apply not_eq_sym, fresh_not_allocated).
    rewrite lookup_insert_ne by (by apply fresh_not_allocated). done.
Qed.

(** X3 on a caller's map that already has a location and one more entry. *)
Lemma X3_witness :
  let h : gmap nat (gmap string string) :=
    <[4%nat := <["location" := "/old"]> (<["x-a" := "1"]> ∅)]> ∅ in
  let rh := Main.Redirect "https://x" 0 (Some 4%nat) h in
  Main.StatusCode rh.1 = 301
  ∧ hmap.view (Main.Headers rh.1) rh.2 !! "location" = Some "https://x"
  ∧ hmap.view (Main.Headers rh.1) rh.2 !! "x-a" = Some "1".
Proof.
  cbv zeta.
  destruct (X3_Main_Redirect "https://x" 0 (Some 4%nat)
              (<[4%nat := <["location" := "/old"]> (<["x-a" := "1"]> ∅)]> ∅))
    as (_ & Hs & Hv & _).
  { intros a [= <-]. rewrite lookup_insert_eq. eauto. }
  split; [exact Hs|]. rewrite Hv. split; reflexivity.
Defined.

(** X4.  [Empty] answers 204 with an empty body and an empty header map
    that is new: it is none of the maps already in memory, so what a caller
    later writes into the headers of one empty response shows in no other
    response.  This holds in src/main.go and in the openruntimes package,
    and no existing map changes. *)
Theorem X4_Empty_is_fresh (h : gmap nat (gmap string string)) :
  let main := Main.Empty h in
  let open := OpenRuntimes.Empty h in
  Main.StatusCode main.1 = 204 ∧ Main.Body main.1 = ""
  ∧ Main.Headers main.1 = Some (fresh (dom h))
  ∧ hmap.view (Main.Headers main.1) main.2 = ∅
  ∧ (∀ b, is_Some (h !! b) → Main.Headers main.1 ≠ Some b ∧ main.2 !! b = h !! b)
  ∧ OpenRuntimes.StatusCode open.1 = 204 ∧ OpenRuntimes.Body open.1 = ""
  ∧ OpenRuntimes.Headers open.1 = Some (fresh (dom h))
  ∧ hmap.view (OpenRuntimes.Headers open.1) open.2 = ∅
  ∧ (∀ b, is_Some (h !! b) → OpenRuntimes.Headers open.1 ≠ Some b ∧ open.2 !! b = h !! b).
Proof.
  cbv zeta. unfold Main.Empty, Main.Send, OpenRuntimes.Empty, OpenRuntimes.Text,
    OpenRuntimes.Binary, hmap.make. cbn.
  assert (Hb : ∀ b, is_Some (h !! b) →
                 Some (fresh (dom h)) ≠ Some b ∧ <[fresh (dom h) := ∅]> h !! b = h !! b).
  { intros b Hs. pose proof (fresh_not_allocated h b Hs) as Hne.
    split; [congruence|]. by rewrite lookup_insert_ne. }
  assert (He : OpenRuntimes.enabled "Headers"
                 (OpenRuntimes.WithStatusCode 204 (OpenRuntimes.New OpenRuntimes.Response_zero))
               = false) by reflexivity.
  rewrite !He.
  repeat split; try done; try (by cbn; rewrite lookup_insert_eq); try (by apply Hb).
Qed.

(** ** The option-based builders of the openruntimes package *)

Section Setters.
Context `{Encoding}.

Lemma apply_setters_cons (f : OpenRuntimes.ResponseOption) fs o :
  OpenRuntimes.apply_setters (f :: fs) o = OpenRuntimes.apply_setters fs (f o).
Proof. reflexivity. Qed.

Lemma enabled_WithStatusCode key c o :
  OpenRuntimes.enabled key (OpenRuntimes.WithStatusCode c o) =
    if decide (key = "StatusCode") then true else OpenRuntimes.enabled key o.
Proof.
  unfold OpenRuntimes.enabled, OpenRuntimes.WithStatusCode. cbn.
  destruct (decide (key = "StatusCode")) as [->|Hne].
  - by rewrite lookup_insert_eq.
  - by rewrite lookup_insert_ne.
Qed.

Lemma enabled_WithHeaders key m o :
  OpenRuntimes.enabled key (OpenRuntimes.WithHeaders m o) =
    if decide (key = "Headers") then true else OpenRuntimes.enabled key o.
Proof.
  unfold OpenRuntimes.enabled, OpenRuntimes.WithHeaders. cbn.
  destruct (decide (key = "Headers")) as [->|Hne].
  - by rewrite lookup_insert_eq.
  - by rewrite lookup_insert_ne.
Qed.

(** What a list of options leaves in the accumulator. *)
Lemma apply_setters_fields ss o :
  let o' := OpenRuntimes.apply_setters (setter_option <$> ss) o in
  OpenRuntimes.StatusCode o' = default (OpenRuntimes.StatusCode o) (last_status ss)
  ∧ OpenRuntimes.Headers o' = default (OpenRuntimes.Headers o) (last_headers ss)
  ∧ OpenRuntimes.enabled "StatusCode" o' =
      (if last_status ss is Some _ then true else OpenRuntimes.enabled "StatusCode" o)
  ∧ OpenRuntimes.enabled "Headers" o' =
      (if last_headers ss is Some _ then true else OpenRuntimes.enabled "Headers" o).
Proof.
  revert o. induction ss as [|s ss IH]; intros o; [done|].
  cbn [fmap list_fmap]. rewrite apply_setters_cons.
  destruct (IH (setter_option s o)) as (Hs & Hh & Hes & Heh).
  cbv zeta. rewrite Hs, Hh, Hes, Heh. cbn [last_status last_headers].
  destruct (last_status ss), (last_headers ss), s; cbn [setter_option];
    rewrite ?enabled_WithStatusCode, ?enabled_WithHeaders; done.
Qed.

Lemma last_status_snoc ss s :
  last_status (ss ++ [s]) =
    match s with SetStatusCode c => Some c | SetHeaders _ => last_status ss end.
Proof.
  induction ss as [|s' ss IH]; [by destruct s|].
  cbn [app last_status]. rewrite IH. destruct s; [|done]. by destruct (last_status ss).
Qed.

Lemma last_headers_snoc ss s :
  last_headers (ss ++ [s]) =
    match s with SetHeaders m => Some m | SetStatusCode _ => last_headers ss end.
Proof.
  induction ss as [|s' ss IH]; [by destruct s|].
  cbn [app last_headers]. rewrite IH. destruct s; [done|]. by destruct (last_headers ss).
Qed.

Lemma enabled_New key :
  OpenRuntimes.enabled key (OpenRuntimes.New OpenRuntimes.Response_zero) = false.
Proof.
  unfold OpenRuntimes.enabled, OpenRuntimes.New. cbn.
  destruct (decide (key = "Body")) as [->|?]; [by rewrite lookup_insert_eq|].
  rewrite lookup_insert_ne by done.
  destruct (decide (key = "StatusCode")) as [->|?]; [by rewrite lookup_insert_eq|].
  rewrite lookup_insert_ne by done.
  destruct (decide (key = "Headers")) as [->|?]; [by rewrite lookup_insert_eq|].
  by rewrite lookup_insert_ne.
Qed.

(** [Binary] under a list of named options. *)
Lemma Binary_setters bytes ss (h : gmap nat (gmap string string)) :
  OpenRuntimes.Binary bytes (setter_option <$> ss) h =
    (OpenRuntimes.mkResponse bytes (default 200 (last_status ss))
       (default (Some (fresh (dom h))) (last_headers ss)) ∅,
     <[fresh (dom h) := ∅]> h).
Proof.
  unfold OpenRuntimes.Binary, hmap.make. cbv zeta.
  destruct (apply_setters_fields ss (OpenRuntimes.New OpenRuntimes.Response_zero))
    as (Hs & Hh & Hes & Heh).
  rewrite Hs, Hh, Hes, Heh, !enabled_New.
  by destruct (last_status ss), (last_headers ss).
Qed.

End Setters.

(** X5.  In the openruntimes package [Send], [Text] and [Binary] read their
    options so that the last [WithStatusCode] and the last [WithHeaders]
    win, whatever the order and number of options; without a
    [WithStatusCode] the status is 200, and without a [WithHeaders] the
    headers are a new empty map.  The body is passed through, and no map
    already in memory changes. *)
Theorem X5_last_option_wins (body : string) (ss : list setter)
    (h : gmap nat (gmap string string)) :
  let expected :=
    (OpenRuntimes.mkResponse body (default 200 (last_status ss))
       (default (Some (fresh (dom h))) (last_headers ss)) ∅,
     <[fresh (dom h) := ∅]> h) in
  OpenRuntimes.Send body (setter_option <$> ss) h = expected
  ∧ OpenRuntimes.Text body (setter_option <$> ss) h = expected
  ∧ OpenRuntimes.Binary body (setter_option <$> ss) h = expected
  ∧ (∀ b, is_Some (h !! b) → expected.2 !! b = h !! b).
Proof.
  cbv zeta. unfold OpenRuntimes.Send, OpenRuntimes.Text.
  rewrite Binary_setters. repeat split.
  intros b Hb. cbn. rewrite lookup_insert_ne by (by apply fresh_not_allocated). done.
Qed.

Example X5_sample :
  let r := (OpenRuntimes.Text "hi"
              [OpenRuntimes.WithStatusCode 404; OpenRuntimes.WithHeaders (Some 3%nat);
               OpenRuntimes.WithStatusCode 201] ∅).1 in
  OpenRuntimes.StatusCode r = 201 ∧ OpenRuntimes.Headers r = Some 3%nat.
Proof. vm_compute. split; reflexivity. Qed.

Section OptionBuilders.
Context `{Encoding}.

(** [Json] under a list of named options, in full. *)
Lemma Json_setters bodyStruct ss (h : gmap nat (gmap string string)) :
  let h0 := <[fresh (dom h) := ∅]> h in
  OpenRuntimes.Json bodyStruct (setter_option <$> ss) h =
    match default (Some (fresh (dom h))) (last_headers ss) with
    | None => None
    | Some a =>
        let h1 := hmap.store a "content-type" "application/json" h0 in
        Some (OpenRuntimes.mkResponse
                (default "Error encoding JSON." (json_Marshal bodyStruct))
                (if json_Marshal bodyStruct is Some _
                 then default 200 (last_status ss) else 500)
                (Some a) ∅,
              <[fresh (dom h1) := ∅]> h1)
    end.
Proof.
  cbv zeta. unfold OpenRuntimes.Json, hmap.make. cbv zeta.
  destruct (apply_setters_fields ss (OpenRuntimes.New OpenRuntimes.Response_zero))
    as (_ & Hh & _ & Heh).
  rewrite Hh, Heh, !enabled_New.
  assert (Hd : (if (if last_headers ss is Some _ then true else false)
                then default (OpenRuntimes.Headers (OpenRuntimes.New OpenRuntimes.Response_zero))
                             (last_headers ss)
                else Some (fresh (dom h)))
               = default (Some (fresh (dom h))) (last_headers ss))
    by (by destruct (last_headers ss)).
  rewrite Hd. clear Hd.
  destruct (default (Some (fresh (dom h))) (last_headers ss)) as [a|]; [|done].
  change [OpenRuntimes.WithHeaders (Some a)] with (setter_option <$> [SetHeaders (Some a)]).
  rewrite <- fmap_app.
  destruct (json_Marshal bodyStruct) as [jsonData|].
  - unfold OpenRuntimes.Text. rewrite Binary_setters.
    rewrite last_status_snoc, last_headers_snoc. done.
  - change [OpenRuntimes.WithStatusCode 500] with (setter_option <$> [SetStatusCode 500]).
    rewrite <- fmap_app.
    unfold OpenRuntimes.Text. rewrite Binary_setters.
    rewrite last_status_snoc, last_headers_snoc, last_headers_snoc. done.
Qed.

(** [Redirect] under a list of named options, in full. *)
Lemma Redirect_setters url ss (h : gmap nat (gmap string string)) :
  let h0 := <[fresh (dom h) := ∅]> h in
  OpenRuntimes.Redirect url (setter_option <$> ss) h =
    match default (Some (fresh (dom h))) (last_headers ss) with
    | None => None
    | Some a =>
        let h1 := hmap.store a "location" url h0 in
        Some (OpenRuntimes.mkResponse "" (default 301 (last_status ss)) (Some a) ∅,
              <[fresh (dom h1) := ∅]> h1)
    end.
Proof.
  cbv zeta. unfold OpenRuntimes.Redirect, hmap.make. cbv zeta.
  destruct (apply_setters_fields ss (OpenRuntimes.New OpenRuntimes.Response_zero))
    as (_ & Hh & _ & Heh).
  rewrite Hh, Heh, !enabled_New.
  assert (Hd : (if (if last_headers ss is Some _ then true else false)
                then default (OpenRuntimes.Headers (OpenRuntimes.New OpenRuntimes.Response_zero))
                             (last_headers ss)
                else Some (fresh (dom h)))
               = default (Some (fresh (dom h))) (last_headers ss))
    by (by destruct (last_headers ss)).
  rewrite Hd. clear Hd.
  destruct (default (Some (fresh (dom h))) (last_headers ss)) as [a|]; [|done].
  change [OpenRuntimes.WithHeaders (Some a)] with (setter_option <$> [SetHeaders (Some a)]).
  rewrite <- fmap_app.
  change (OpenRuntimes.WithStatusCode 301
            :: (setter_option <$> (ss ++ [SetHeaders (Some a)])%list))
    with (setter_option <$> (([SetStatusCode 301] ++ ss) ++ [SetHeaders (Some a)])%list).
  unfold OpenRuntimes.Text. rewrite Binary_setters.
  rewrite last_status_snoc, last_headers_snoc.
  f_equal. f_equal.
  cbn [app last_status]. by destruct (last_status ss).
Qed.

End OptionBuilders.

(** The memory after an option-based builder has written one header: the
    map it wrote to is the caller's, or the new one when no header option
    was given; a second new map, made by [Binary], stays unused. *)
Lemma option_store_facts (k v : string) (mh : option hmap.ref)
    (h : gmap nat (gmap string string)) (a : nat) :
  default (Some (fresh (dom h))) mh = Some a →
  (∀ a', mh = Some (Some a') → is_Some (h !! a')) →
  let h0 := <[fresh (dom h) := ∅]> h in
  let h1 := hmap.store a k v h0 in
  let h' := <[fresh (dom h1) := ∅]> h1 in
  hmap.view (Some a) h' = <[k := v]> (hmap.view (default None mh) h)
  ∧ (∀ a', mh = Some (Some a') → a = a')
  ∧ (∀ b, is_Some (h !! b) → mh ≠ Some (Some b) → h' !! b = h !! b).
Proof.
  intros Ha Hvalid h0 h1 h'.
  assert (Hm : ∃ m, h0 !! a = Some m ∧ m = hmap.view (default None mh) h
                    ∧ (∀ b, is_Some (h !! b) → mh ≠ Some (Some b) → b ≠ a)).
  { destruct mh as [[a'|]|]; cbn in Ha; try discriminate; injection Ha as <-.
    - destruct (Hvalid a' eq_refl) as [m Hm]. exists m. unfold h0.
      rewrite lookup_insert_ne by (by apply fresh_not_allocated).
      split; [done|]. split; [by cbn; rewrite Hm|].
      intros b _ Hb Heq. apply Hb. by rewrite Heq.
    - exists ∅. unfold h0. rewrite lookup_insert_eq.
      split; [done|]. split; [done|]. intros b Hb _.
      by apply not_eq_sym, fresh_not_allocated. }
  destruct Hm as (m & Hm & -> & Hother).
  assert (H1a : h1 !! a = Some (<[k := v]> (hmap.view (default None mh) h))).
  { unfold h1, hmap.store. by rewrite lookup_alter_eq, Hm. }
  split; [|split].
  - unfold h'. cbn. rewrite lookup_insert_ne by (apply fresh_not_allocated; eauto).
    by rewrite H1a.
  - intros a' ->. cbn in Ha. congruence.
  - intros b Hb Hne. pose proof (Hother b Hb Hne) as Hba.
    assert (H1b : h1 !! b = h !! b).
    { unfold h1. rewrite store_other by done. unfold h0.
      rewrite lookup_insert_ne by (by apply fresh_not_allocated). done. }
    unfold h'. rewrite lookup_insert_ne; [done|].
    apply fresh_not_allocated. by rewrite H1b.
Qed.

(** X6.  [Json] of the openruntimes package, called with options that do
    not hand it a nil header map: the body is the JSON text, or the fixed
    error text when serialization fails; the status is the caller's last
    [WithStatusCode] or 200 when serialization succeeds, and 500 when it
    fails, whatever status the caller asked for; the headers are the
    caller's last [WithHeaders] map itself, or a new map, and show the
    caller's entries with content-type set to application/json.  No other
    map in memory changes. *)
Theorem X6_OpenRuntimes_Json_options `{Encoding} (bodyStruct : interface other)
    (ss : list setter) (h : gmap nat (gmap string string)) :
  last_headers ss ≠ Some None →
  (∀ a, last_headers ss = Some (Some a) → is_Some (h !! a)) →
  ∃ r h',
    OpenRuntimes.Json bodyStruct (setter_option <$> ss) h = Some (r, h')
    ∧ OpenRuntimes.Body r = default "Error encoding JSON." (json_Marshal bodyStruct)
    ∧ OpenRuntimes.StatusCode r =
        (if json_Marshal bodyStruct is Some _ then default 200 (last_status ss) else 500)
    ∧ hmap.view (OpenRuntimes.Headers r) h' =
        <["content-type" := "application/json"]> (hmap.view (default None (last_headers ss)) h)
    ∧ (∀ a, last_headers ss = Some (Some a) → OpenRuntimes.Headers r = Some a)
    ∧ (∀ b, is_Some (h !! b) → last_headers ss ≠ Some (Some b) → h' !! b = h !! b).
Proof.
  intros Hnil Hvalid. rewrite Json_setters. cbv zeta.
  destruct (default (Some (fresh (dom h))) (last_headers ss)) as [a|] eqn:Ha.
  - destruct (option_store_facts "content-type" "application/json" _ h a Ha Hvalid)
      as (Hv & Hsame & Hother).
    eexists _, _. split; [reflexivity|]. cbn [OpenRuntimes.Body OpenRuntimes.StatusCode
                                               OpenRuntimes.Headers].
    split; [done|]. split; [done|]. split; [exact Hv|]. split; [|exact Hother].
    intros a' Ha'. by rewrite (Hsame a' Ha').
  - destruct (last_headers ss) as [[?|]|]; cbn in Ha; try discriminate. by destruct Hnil.
Qed.

(** X6 on a failing body with a caller who asked for status 201 and handed
    in a map with one entry. *)
Lemma X6_witness :
  ∃ r h',
    OpenRuntimes.Json (H := sample_encoding) (IOther Chan)
      (setter_option <$> [SetStatusCode 201; SetHeaders (Some 0%nat)])
      (<[0%nat := <["x-a" := "1"]> ∅]> ∅) = Some (r, h')
    ∧ OpenRuntimes.StatusCode r = 500
    ∧ hmap.view (OpenRuntimes.Headers r) h' !! "x-a" = Some "1".
Proof.
  destruct (X6_OpenRuntimes_Json_options (H := sample_encoding) (IOther Chan)
              [SetStatusCode 201; SetHeaders (Some 0%nat)]
              (<[0%nat := <["x-a" := "1"]> ∅]> ∅))
    as (r & h' & Hj & _ & Hs & Hv & _).
  { discriminate. }
  { intros a [= <-]. rewrite lookup_insert_eq. eauto. }
  exists r, h'. split; [exact Hj|]. split; [exact Hs|]. rewrite Hv. reflexivity.
Defined.

(** X7.  [Redirect] of the openruntimes package, called with options that
    do not hand it a nil header map: the body is empty; the status is the
    caller's last [WithStatusCode], and 301 only when the caller gave none;
    the headers are the caller's last [WithHeaders] map itself, or a new
    map, and show the caller's entries with location set to the URL.  No
    other map in memory changes. *)
Theorem X7_OpenRuntimes_Redirect_options (url : string)
    (ss : list setter) (h : gmap nat (gmap string string)) :
  last_headers ss ≠ Some None →
  (∀ a, last_headers ss = Some (Some a) → is_Some (h !! a)) →
  ∃ r h',
    OpenRuntimes.Redirect url (setter_option <$> ss) h = Some (r, h')
    ∧ OpenRuntimes.Body r = ""
    ∧ OpenRuntimes.StatusCode r = default 301 (last_status ss)
    ∧ hmap.view (OpenRuntimes.Headers r) h' =
        <["location" := url]> (hmap.view (default None (last_headers ss)) h)
    ∧ (∀ a, last_headers ss = Some (Some a) → OpenRuntimes.Headers r = Some a)
    ∧ (∀ b, is_Some (h !! b) → last_headers ss ≠ Some (Some b) → h' !! b = h !! b).
Proof.
  intros Hnil Hvalid. rewrite Redirect_setters. cbv zeta.
  destruct (default (Some (fresh (dom h))) (last_headers ss)) as [a|] eqn:Ha.
  - destruct (option_store_facts "location" url _ h a Ha Hvalid) as (Hv & Hsame & Hother).
    eexists _, _. split; [reflexivity|]. cbn [OpenRuntimes.Body OpenRuntimes.StatusCode
                                               OpenRuntimes.Headers].
    split; [done|]. split; [done|]. split; [exact Hv|]. split; [|exact Hother].
    intros a' Ha'. by rewrite (Hsame a' Ha').
  - destruct (last_headers ss) as [[?|]|]; cbn in Ha; try discriminate. by destruct Hnil.
Qed.

(** X7 with a caller who asked for status 308 and gave no headers. *)
Lemma X7_witness :
  ∃ r h',
    OpenRuntimes.Redirect "https://x" (setter_option <$> [SetStatusCode 308]) ∅ = Some (r, h')
    ∧ OpenRuntimes.StatusCode r = 308
    ∧ hmap.view (OpenRuntimes.Headers r) h' !! "location" = Some "https://x".
Proof.
  destruct (X7_OpenRuntimes_Redirect_options "https://x" [SetStatusCode 308] ∅)
    as (r & h' & Hj & _ & Hs & Hv & _).
  { discriminate. }
  { intros a [=]. }
  exists r, h'. split; [exact Hj|]. split; [exact Hs|]. rewrite Hv. reflexivity.
Defined.

(** X8.  [Json] and [Redirect] of the openruntimes package panic, on the
    assignment into a nil map, exactly when the last [WithHeaders] among
    the options carries a nil map; with any other options they return. *)
Theorem X8_nil_headers_panic `{Encoding} (bodyStruct : interface other) (url : string)
    (ss : list setter) (h : gmap nat (gmap string string)) :
  (OpenRuntimes.Json bodyStruct (setter_option <$> ss) h = None
   ↔ last_headers ss = Some None)
  ∧ (OpenRuntimes.Redirect url (setter_option <$> ss) h = None
     ↔ last_headers ss = Some None).
Proof.
  rewrite Json_setters, Redirect_setters. cbv zeta.
  destruct (last_headers ss) as [[a|]|]; cbn; split; split; done.
Qed.

(** ** Building a logger *)

Section Construction.

Lemma OpenFile_denied name w :
  name ∈ os.denied w → os.OpenFile name w = ((None, Some os.ErrOpen), w).
Proof. intros Hd. unfold os.OpenFile. by destruct (decide (name ∈ os.denied w)). Qed.

Lemma OpenFile_allowed name w :
  name ∉ os.denied w →
  os.OpenFile name w =
    ((Some (fresh (dom (os.files w))), None),
     os.with_files (<[fresh (dom (os.files w)) := os.mkFile name false ""]> (os.files w)) w).
Proof. intros Hd. unfold os.OpenFile. by destruct (decide (name ∈ os.denied w)). Qed.

Lemma pad_loop_keeps_files n s w :
  os.files (OpenRuntimes.pad_loop n s w).2 = os.files w
  ∧ os.denied (OpenRuntimes.pad_loop n s w).2 = os.denied w.
Proof.
  revert s w. induction n as [|n IH]; intros s w; [done|].
  cbn [OpenRuntimes.pad_loop]. unfold rand.Intn.
  destruct (os.entropy w) as [|r rest];
    match goal with |- context [OpenRuntimes.pad_loop n ?s' ?w'] =>
      destruct (IH s' w') as [-> ->] end; done.
Qed.

Lemma generateId_keeps_files l padding w :
  os.files (OpenRuntimes.generateId l padding w).2 = os.files w
  ∧ os.denied (OpenRuntimes.generateId l padding w).2 = os.denied w.
Proof.
  unfold OpenRuntimes.generateId. destruct (decide (padding > 0)); [|done].
  apply pad_loop_keeps_files.
Qed.

Lemma _GenerateId_keeps_files l w :
  os.files (Main._GenerateId l w).2 = os.files w
  ∧ os.denied (Main._GenerateId l w).2 = os.denied w.
Proof.
  unfold Main._GenerateId, rand.Intn. by destruct (os.entropy w).
Qed.

End Construction.

Section ConstructionFacts.

Lemma open_streams_fail_logs logger w :
  ("/mnt/logs/" +:+ Id logger +:+ "_logs.log") ∈ os.denied w →
  open_streams logger w = ((Logger_zero, Some "could not prepare log file"), w).
Proof. intros Hd. unfold open_streams. by rewrite (OpenFile_denied _ _ Hd). Qed.

Lemma open_streams_fail_errors logger w :
  ("/mnt/logs/" +:+ Id logger +:+ "_logs.log") ∉ os.denied w →
  ("/mnt/logs/" +:+ Id logger +:+ "_errors.log") ∈ os.denied w →
  open_streams logger w =
    ((Logger_zero, Some "could not prepare log file"),
     os.with_files
       (<[fresh (dom (os.files w)) :=
            os.mkFile ("/mnt/logs/" +:+ Id logger +:+ "_logs.log") false ""]> (os.files w)) w).
Proof.
  intros Hl He. unfold open_streams. rewrite (OpenFile_allowed _ _ Hl).
  cbn [Id set_StreamLogs]. by rewrite OpenFile_denied.
Qed.

Lemma open_streams_ok logger w :
  ("/mnt/logs/" +:+ Id logger +:+ "_logs.log") ∉ os.denied w →
  ("/mnt/logs/" +:+ Id logger +:+ "_errors.log") ∉ os.denied w →
  let fl := fresh (dom (os.files w)) in
  let files1 := <[fl := os.mkFile ("/mnt/logs/" +:+ Id logger +:+ "_logs.log") false ""]>
                  (os.files w) in
  let fe := fresh (dom files1) in
  open_streams logger w =
    ((set_StreamErrors (Some fe) (set_StreamLogs (Some fl) logger), None),
     os.with_files
       (<[fe := os.mkFile ("/mnt/logs/" +:+ Id logger +:+ "_errors.log") false ""]> files1) w).
Proof.
  intros Hl He. cbv zeta. unfold open_streams. rewrite (OpenFile_allowed _ _ Hl).
  cbn [Id set_StreamLogs]. rewrite OpenFile_allowed by done. done.
Qed.

(** The three outcomes of opening the streams, by the paths denied. *)
Lemma open_streams_cases logger w :
  ((("/mnt/logs/" +:+ Id logger +:+ "_logs.log") ∈ os.denied w)
   ∧ open_streams logger w = ((Logger_zero, Some "could not prepare log file"), w))
  ∨ ((("/mnt/logs/" +:+ Id logger +:+ "_logs.log") ∉ os.denied w)
     ∧ (("/mnt/logs/" +:+ Id logger +:+ "_errors.log") ∈ os.denied w)
     ∧ (open_streams logger w).1 = (Logger_zero, Some "could not prepare log file"))
  ∨ ((("/mnt/logs/" +:+ Id logger +:+ "_logs.log") ∉ os.denied w)
     ∧ (("/mnt/logs/" +:+ Id logger +:+ "_errors.log") ∉ os.denied w)
     ∧ (open_streams logger w).1.2 = None).
Proof.
  destruct (decide (("/mnt/logs/" +:+ Id logger +:+ "_logs.log") ∈ os.denied w)) as [Hl|Hl].
  { left. split; [done|]. by apply open_streams_fail_logs. }
  right.
  destruct (decide (("/mnt/logs/" +:+ Id logger +:+ "_errors.log") ∈ os.denied w)) as [He|He].
  - left. split; [done|]. split; [done|]. by rewrite open_streams_fail_errors.
  - right. split; [done|]. split; [done|]. by rewrite open_streams_ok.
Qed.

(** [NewLogger] of part_001: choose the identifier, then open the streams. *)
Lemma OpenRuntimes_NewLogger_unfold status id w :
  OpenRuntimes.NewLogger status id w =
    if decide (status = "" ∨ status = "enabled") then
      let sel :=
        if decide (id = "") then
          if decide (os.Getenv "OPEN_RUNTIMES_ENV" w = "development") then ("dev", w)
          else OpenRuntimes.generateId (set_Enabled true Logger_zero) 7 w
        else (id, w) in
      open_streams (set_Id sel.1 (set_Enabled true Logger_zero)) sel.2
    else ((Logger_zero, None), w).
Proof.
  unfold OpenRuntimes.NewLogger, open_streams.
  destruct (decide (status = "" ∨ status = "enabled")); [|done].
  cbn [Enabled set_Enabled set_IncludesNativeInfo].
  destruct (decide (id = "")); [|done].
  destruct (decide (os.Getenv "OPEN_RUNTIMES_ENV" w = "development")); [done|].
  change (set_Enabled true (set_IncludesNativeInfo false Logger_zero))
    with (set_Enabled true Logger_zero).
  by destruct (OpenRuntimes.generateId (set_Enabled true Logger_zero) 7 w).
Qed.

(** [NewLogger] of src/main.go: the same, with the environment first. *)
Lemma Main_NewLogger_unfold status id w :
  Main.NewLogger status id w =
    if decide (status = "" ∨ status = "enabled") then
      let sel :=
        if decide (os.Getenv "OPEN_RUNTIMES_ENV" w = "development") then ("dev", w)
        else if decide (id = "") then Main._GenerateId (set_Enabled true Logger_zero) w
        else (id, w) in
      open_streams (set_Id sel.1 (set_Enabled true Logger_zero)) sel.2
    else ((Logger_zero, None), w).
Proof.
  unfold Main.NewLogger, open_streams.
  destruct (decide (status = "" ∨ status = "enabled")); [|done].
  cbn [Enabled set_Enabled set_IncludesNativeInfo].
  destruct (decide (os.Getenv "OPEN_RUNTIMES_ENV" w = "development")); [done|].
  destruct (decide (id = "")); [|done].
  change (set_Enabled true (set_IncludesNativeInfo false Logger_zero))
    with (set_Enabled true Logger_zero).
  by destruct (Main._GenerateId (set_Enabled true Logger_zero) w).
Qed.

(** A successful [open_streams]: two new open file descriptions on the
    paths named after the identifier, nothing appended through them yet,
    beside the descriptions that were there. *)
Lemma open_streams_success logger w l w' :
  open_streams logger w = ((l, None), w') →
  ∃ fl fe,
    l = set_StreamErrors (Some fe) (set_StreamLogs (Some fl) logger)
    ∧ fl ≠ fe ∧ os.files w !! fl = None ∧ os.files w !! fe = None
    ∧ os.files w' =
        <[fe := os.mkFile ("/mnt/logs/" +:+ Id logger +:+ "_errors.log") false ""]>
          (<[fl := os.mkFile ("/mnt/logs/" +:+ Id logger +:+ "_logs.log") false ""]>
             (os.files w)).
Proof.
  intros Ho.
  destruct (open_streams_cases logger w) as [[_ He]|[(_ & _ & He)|(Hl & He & _)]].
  - rewrite He in Ho. discriminate.
  - rewrite Ho in He. discriminate.
  - rewrite (open_streams_ok _ _ Hl He) in Ho. cbv zeta in Ho.
    injection Ho as <- <-.
    set (fl := fresh (dom (os.files w))).
    set (files1 := <[fl := _]> (os.files w)).
    set (fe := fresh (dom files1)).
    assert (Hfl : os.files w !! fl = None) by (apply not_elem_of_dom, is_fresh).
    assert (Hfe : files1 !! fe = None) by (apply not_elem_of_dom, is_fresh).
    assert (Hne : fl ≠ fe).
    { intros Heq. unfold files1 in Hfe. rewrite <- Heq, lookup_insert_eq in Hfe. done. }
    exists fl, fe. split; [done|]. split; [done|]. split; [done|]. split; [|done].
    unfold files1 in Hfe. by rewrite lookup_insert_ne in Hfe.
Qed.

End ConstructionFacts.

(** X9.  When [NewLogger] (src/main.go or part_001) returns an enabled
    logger and no error, the logger's two destinations are two different
    handles, both new (no handle in use before the call is taken again) and
    open, on the paths /mnt/logs/<Id>_logs.log and /mnt/logs/<Id>_errors.log
    of the logger's identifier, and nothing has been appended through them
    yet; every open file description that was there before is left as it
    was; and the notice latch is down.  Whether the two paths already held
    bytes is not stated: the files are opened for appending. *)
Theorem X9_NewLogger_opens_two_new_handles (status id : string) (w w' : os.World)
    (l : Logger) :
  OpenRuntimes.NewLogger status id w = ((l, None), w')
  ∨ Main.NewLogger status id w = ((l, None), w') →
  Enabled l = true →
  ∃ fl fe,
    StreamLogs l = Some fl ∧ StreamErrors l = Some fe ∧ fl ≠ fe
    ∧ os.files w !! fl = None ∧ os.files w !! fe = None
    ∧ os.files w' !! fl = Some (os.mkFile ("/mnt/logs/" +:+ Id l +:+ "_logs.log") false "")
    ∧ os.files w' !! fe = Some (os.mkFile ("/mnt/logs/" +:+ Id l +:+ "_errors.log") false "")
    ∧ (∀ fd, is_Some (os.files w !! fd) → os.files w' !! fd = os.files w !! fd)
    ∧ IncludesNativeInfo l = false.
Proof.
  intros Hn He.
  assert (Ho : ∃ i w1, os.files w1 = os.files w
                       ∧ open_streams (set_Id i (set_Enabled true Logger_zero)) w1
                         = ((l, None), w')).
  { destruct Hn as [Hn|Hn].
    - rewrite OpenRuntimes_NewLogger_unfold in Hn.
      destruct (decide (status = "" ∨ status = "enabled"));
        [|injection Hn as <- _; discriminate].
      eexists _, _. split; [|exact Hn].
      destruct (decide (id = "")); [|done].
      destruct (decide (os.Getenv "OPEN_RUNTIMES_ENV" w = "development")); [done|].
      apply generateId_keeps_files.
    - rewrite Main_NewLogger_unfold in Hn.
      destruct (decide (status = "" ∨ status = "enabled"));
        [|injection Hn as <- _; discriminate].
      eexists _, _. split; [|exact Hn].
      destruct (decide (os.Getenv "OPEN_RUNTIMES_ENV" w = "development")); [done|].
      destruct (decide (id = "")); [|done].
      apply _GenerateId_keeps_files. }
  destruct Ho as (i & w1 & Hf & Ho).
  destruct (open_streams_success _ _ _ _ Ho) as (fl & fe & -> & Hne & Hfl & Hfe & Hw').
  rewrite Hf in *. exists fl, fe. cbn.
  split; [done|]. split; [done|]. split; [done|]. split; [done|]. split; [done|].
  rewrite Hw'. split.
  { rewrite lookup_insert_ne by done. by rewrite lookup_insert_eq. }
  split; [by rewrite lookup_insert_eq|]. split; [|done].
  intros fd [f Hfd].
  rewrite !lookup_insert_ne by congruence. done.
Qed.

(** X9 on the sample process, with the identifier x. *)
Lemma X9_witness :
  ∃ fl fe,
    StreamLogs (OpenRuntimes.NewLogger "" "x" sample_world).1.1 = Some fl
    ∧ StreamErrors (OpenRuntimes.NewLogger "" "x" sample_world).1.1 = Some fe
    ∧ fl ≠ fe.
Proof.
  destruct (X9_NewLogger_opens_two_new_handles "" "x" sample_world
              (OpenRuntimes.NewLogger "" "x" sample_world).2
              (OpenRuntimes.NewLogger "" "x" sample_world).1.1)
    as (fl & fe & Hl & He & Hne & _).
  { left. vm_compute. reflexivity. }
  { vm_compute. reflexivity. }
  exists fl, fe. auto.
Defined.

(** X10.  [NewLogger] (src/main.go or part_001) called with a status other
    than the empty string or "enabled" opens nothing: it returns the zero
    [Logger], no error, and leaves the process as it was.  An error is
    returned only for an enabled status; it always has the text
    "could not prepare log file" and comes with the zero [Logger], never
    with a half-built one.  When no path is refused there is no error. *)
Theorem X10_NewLogger_outcomes (status id : string) (w : os.World)
    (r : (Logger * option string) * os.World) :
  r = OpenRuntimes.NewLogger status id w ∨ r = Main.NewLogger status id w →
  (¬ (status = "" ∨ status = "enabled") → r = ((Logger_zero, None), w))
  ∧ (r.1.2 = None
     ∨ ((status = "" ∨ status = "enabled")
        ∧ r.1 = (Logger_zero, Some "could not prepare log file")))
  ∧ (os.denied w = ∅ → r.1.2 = None).
Proof.
  intros Hr.
  assert (Ho : (¬ (status = "" ∨ status = "enabled") ∧ r = ((Logger_zero, None), w))
               ∨ ((status = "" ∨ status = "enabled")
                  ∧ ∃ i w1, os.denied w1 = os.denied w
                            ∧ r = open_streams (set_Id i (set_Enabled true Logger_zero)) w1)).
  { destruct Hr as [-> | ->].
    - rewrite OpenRuntimes_NewLogger_unfold.
      destruct (decide (status = "" ∨ status = "enabled")); [right|by left].
      split; [done|]. eexists _, _. split; [|reflexivity].
      destruct (decide (id = "")); [|done].
      destruct (decide (os.Getenv "OPEN_RUNTIMES_ENV" w = "development")); [done|].
      apply generateId_keeps_files.
    - rewrite Main_NewLogger_unfold.
      destruct (decide (status = "" ∨ status = "enabled")); [right|by left].
      split; [done|]. eexists _, _. split; [|reflexivity].
      destruct (decide (os.Getenv "OPEN_RUNTIMES_ENV" w = "development")); [done|].
      destruct (decide (id = "")); [|done].
      apply _GenerateId_keeps_files. }
  destruct Ho as [[Hs ->]|(Hs & i & w1 & Hd & ->)].
  - split; [done|]. split; [by left|done].
  - split; [done|].
    destruct (open_streams_cases (set_Id i (set_Enabled true Logger_zero)) w1)
      as [[Hin He]|[(_ & Hin & He)|(_ & _ & He)]].
    + rewrite He. split; [by right|]. intros Hempty. rewrite Hd, Hempty in Hin.
      by apply not_elem_of_empty in Hin.
    + rewrite He. split; [by right|]. intros Hempty. rewrite Hd, Hempty in Hin.
      by apply not_elem_of_empty in Hin.
    + split; [by left|done].
Qed.

(** X10 on the sample process and the status "disabled". *)
Lemma X10_witness :
  Main.NewLogger "disabled" "x" sample_world = ((Logger_zero, None), sample_world).
Proof.
  apply (X10_NewLogger_outcomes "disabled" "x" sample_world
           (Main.NewLogger "disabled" "x" sample_world)).
  - right. reflexivity.
  - intros [Hs|Hs]; discriminate Hs.
Defined.

(** X11.  [NewLogger] of part_001 with an enabled status and a supplied
    identifier fails exactly when the log path or the error path of that
    identifier is refused.  When only the error path is refused, the log
    file has already been opened: it is left open in the process, under a
    handle that the zero [Logger] returned with the error does not hold. *)
Theorem X11_NewLogger_failure_leaves_log_file_open (status id : string) (w : os.World) :
  id ≠ "" →
  status = "" ∨ status = "enabled" →
  let logs := "/mnt/logs/" +:+ id +:+ "_logs.log" in
  let errors := "/mnt/logs/" +:+ id +:+ "_errors.log" in
  let r := OpenRuntimes.NewLogger status id w in
  (r.1.2 ≠ None ↔ (logs ∈ os.denied w) ∨ (errors ∈ os.denied w))
  ∧ ((logs ∉ os.denied w) → (errors ∈ os.denied w) →
     r.1.1 = Logger_zero
     ∧ os.files w !! fresh (dom (os.files w)) = None
     ∧ os.files r.2 !! fresh (dom (os.files w)) = Some (os.mkFile logs false "")).
Proof.
  intros Hid Hs. cbv zeta. rewrite OpenRuntimes_NewLogger_unfold.
  destruct (decide (status = "" ∨ status = "enabled")); [|done].
  destruct (decide (id = "")); [done|]. cbv zeta. cbn [fst snd].
  pose proof (open_streams_cases (set_Id id (set_Enabled true Logger_zero)) w) as Hc.
  pose proof (open_streams_fail_errors (set_Id id (set_Enabled true Logger_zero)) w) as Hfe.
  cbn [Id set_Id] in Hc, Hfe.
  destruct Hc as [[Hin He]|[(Hl & Hin & He)|(Hl & Hin & He)]].
  - split.
    + rewrite He. split; [by left|done].
    + intros Hl. done.
  - split.
    + rewrite He. split; [by right|done].
    + intros _ _. rewrite (Hfe Hl Hin). cbn.
      split; [done|]. split; [apply not_elem_of_dom, is_fresh|].
      by rewrite lookup_insert_eq.
  - split.
    + rewrite He. split; [done|]. intros [?|?]; done.
    + intros _ ?. done.
Qed.

(** X11 on a process that refuses the error path of the identifier x. *)
Lemma X11_witness :
  let w := os.mkWorld ∅ {["/mnt/logs/x_errors.log"]} ∅ 0 [] None None None in
  (OpenRuntimes.NewLogger "" "x" w).1.1 = Logger_zero
  ∧ os.files (OpenRuntimes.NewLogger "" "x" w).2 !! fresh (dom (os.files w))
    = Some (os.mkFile "/mnt/logs/x_logs.log" false "").
Proof.
  cbv zeta.
  destruct (X11_NewLogger_failure_leaves_log_file_open "" "x"
              (os.mkWorld ∅ {["/mnt/logs/x_errors.log"]} ∅ 0 [] None None None))
    as [_ Hleak].
  { discriminate. }
  { left. reflexivity. }
  destruct Hleak as (Hz & _ & Hf).
  { cbn. intros Hin%elem_of_singleton. discriminate Hin. }
  { cbn. apply elem_of_singleton. reflexivity. }
  split; [exact Hz|exact Hf].
Defined.

(** ** Writing, in sequence *)

Section Sequences.
Context `{Encoding}.

Lemma is_open_after_Write f g b w : os.is_open f w → os.is_open f (os.Write g b w).2.
Proof.
  intros (fd & file & -> & Hf & Hc). unfold os.Write.
  destruct g as [gd|]; [|by exists fd, file].
  destruct (os.files w !! gd) as [gfile|] eqn:Hg; [|by exists fd, file].
  destruct (os.closed gfile) eqn:Hgc; [by exists fd, file|].
  cbn. destruct (decide (gd = fd)) as [->|Hne].
  - eexists fd, _. split; [done|]. split; [apply lookup_insert_eq|done].
  - exists fd, file. split; [done|]. split; [|done].
    cbn. by rewrite lookup_insert_ne.
Qed.

Lemma contents_Write_other f g b w : f ≠ g → os.contents f (os.Write g b w).2 = os.contents f w.
Proof.
  intros Hne. unfold os.Write.
  destruct g as [gd|]; [|done].
  destruct (os.files w !! gd) as [gfile|] eqn:Hg; [|done].
  destruct (os.closed gfile) eqn:Hgc; [done|].
  destruct f as [fd|]; [|done]. cbn.
  rewrite lookup_insert_ne by congruence. done.
Qed.

Lemma is_open_after_Main_Write f l message xtype xnative w :
  os.is_open f w → os.is_open f (Main.Write l message xtype xnative w).
Proof.
  intros Ho. rewrite Main_Write_unfold.
  apply is_open_after_Write. destruct (first_native l xnative); [|done].
  by apply is_open_after_Write.
Qed.

Lemma contents_Main_Write_other f l message xtype xnative w :
  f ≠ target l xtype →
  os.contents f (Main.Write l message xtype xnative w) = os.contents f w.
Proof.
  intros Hne. rewrite Main_Write_unfold.
  rewrite contents_Write_other by done.
  destruct (first_native l xnative); [|done]. by apply contents_Write_other.
Qed.

End Sequences.

(** X12.  In src/main.go a run of [c.Log] calls on a context whose log file
    is open stores the resolved lines in call order, one right after the
    other with nothing between them, after what the file held; the error
    file, when it is another file, is not touched. *)
Theorem X12_Main_Log_in_order `{Encoding} (c : Main.Context)
    (messages : list (interface other)) (w : os.World) :
  os.is_open (StreamLogs (Main._Logger c)) w →
  StreamErrors (Main._Logger c) ≠ StreamLogs (Main._Logger c) →
  os.contents (StreamLogs (Main._Logger c)) (Main_Log_all c messages w) =
    os.contents (StreamLogs (Main._Logger c)) w +:+ join (predicted_line <$> messages)
  ∧ os.contents (StreamErrors (Main._Logger c)) (Main_Log_all c messages w) =
    os.contents (StreamErrors (Main._Logger c)) w.
Proof.
  intros Ho Hne. revert w Ho.
  induction messages as [|m ms IH]; intros w Ho.
  - cbn. by rewrite string_app_nil_r.
  - cbn [Main_Log_all fold_left fmap list_fmap join foldr].
    change (fold_left (λ w m, Main.Log c m w) ms (Main.Log c m w))
      with (Main_Log_all c ms (Main.Log c m w)).
    assert (Ho' : os.is_open (StreamLogs (Main._Logger c)) (Main.Log c m w))
      by (by apply is_open_after_Main_Write).
    destruct (IH _ Ho') as [-> ->]. unfold Main.Log. split.
    + pose proof (Main_Write_contents (Main._Logger c) m LOGGER_TYPE_LOG false w Ho) as Hc.
      change (os.contents (StreamLogs (Main._Logger c))
                (Main.Write (Main._Logger c) m LOGGER_TYPE_LOG false w)
              = os.contents (StreamLogs (Main._Logger c)) w +:+ predicted_line m) in Hc.
      rewrite Hc. by rewrite string_app_assoc.
    + by apply contents_Main_Write_other.
Qed.

(** X12 on the sample logger: a string and a number. *)
Lemma X12_witness :
  os.contents (Some 1%nat)
    (Main_Log_all (H := sample_encoding) (Main.mkContext sample_logger)
                  [IString "a"; IOther (Num 7)] sample_world) = "a7".
Proof.
  apply (X12_Main_Log_in_order (H := sample_encoding) (Main.mkContext sample_logger)
           [IString "a"; IOther (Num 7)] sample_world).
  - exists 1%nat, (os.mkFile "/mnt/logs/x_logs.log" false "").
    split; [reflexivity|]. split; reflexivity.
  - discriminate.
Defined.

(** X13.  On the context of part_000, after any interleaving of [Log] and
    [Error] calls, [Logs] holds what it held followed by the resolved lines
    of the [Log] calls in call order, and [Errors] what it held followed by
    those of the [Error] calls: neither call touches the other slice, and
    no line is dropped, also where JSON serialization fails. *)
Theorem X13_Legacy_slices `{Encoding} (c : Legacy.Context)
    (calls : list (bool * interface other)) :
  Legacy.Logs (Legacy_calls c calls) =
    (Legacy.Logs c ++ (predicted_line ∘ snd <$> filter (λ k, k.1 = false) calls))%list
  ∧ Legacy.Errors (Legacy_calls c calls) =
    (Legacy.Errors c ++ (predicted_line ∘ snd <$> filter (λ k, k.1 = true) calls))%list.
Proof.
  revert c. induction calls as [|[kind m] calls IH]; intros c.
  - cbn. by rewrite !app_nil_r.
  - cbn [Legacy_calls fold_left fst snd].
    match goal with |- context [fold_left ?f calls ?c'] =>
      change (fold_left f calls c') with (Legacy_calls c' calls) end.
    destruct (IH (if kind then Legacy.Error c m else Legacy.Log c m)) as [-> ->].
    rewrite !filter_cons. cbn [fst].
    assert (Hlog : Legacy.Logs (Legacy.Log c m) = (Legacy.Logs c ++ [predicted_line m])%list
                   ∧ Legacy.Errors (Legacy.Log c m) = Legacy.Errors c).
    { destruct m as [s|lg|v]; cbn; try done. by destruct (json_Marshal (IOther v)). }
    assert (Herr : Legacy.Errors (Legacy.Error c m) = (Legacy.Errors c ++ [predicted_line m])%list
                   ∧ Legacy.Logs (Legacy.Error c m) = Legacy.Logs c).
    { destruct m as [s|lg|v]; cbn; try done. by destruct (json_Marshal (IOther v)). }
    destruct Hlog as [Hl1 Hl2], Herr as [He1 He2].
    destruct kind.
    + rewrite decide_False by done. rewrite decide_True by done.
      rewrite He1, He2. cbn. by rewrite <- app_assoc.
    + rewrite decide_True by done. rewrite decide_False by done.
      rewrite Hl1, Hl2. cbn. by rewrite <- app_assoc.
Qed.

(** X14.  In the openruntimes package [Log] and [Error] store, in the log
    file and in the error file, the message followed by a newline: a string
    as it is, and every other value, a [Log] included, in the %#v rendering
    of fmt.  JSON serialization and the [String] method play no part, and
    the context's logger is left as it was. *)
Theorem X14_OpenRuntimes_facade `{Encoding} (c : OpenRuntimes.Context)
    (message : interface other) (w : os.World) :
  (os.is_open (StreamLogs (OpenRuntimes.logger c)) w →
   os.contents (StreamLogs (OpenRuntimes.logger c)) (OpenRuntimes.Log c message w).2 =
     os.contents (StreamLogs (OpenRuntimes.logger c)) w +:+ rendered message)
  ∧ (os.is_open (StreamErrors (OpenRuntimes.logger c)) w →
     os.contents (StreamErrors (OpenRuntimes.logger c)) (OpenRuntimes.Error c message w).2 =
       os.contents (StreamErrors (OpenRuntimes.logger c)) w +:+ rendered message)
  ∧ (OpenRuntimes.Log c message w).1 = c
  ∧ (OpenRuntimes.Error c message w).1 = c.
Proof.
  assert (Hl : ∀ xtype text,
             OpenRuntimes.Write (OpenRuntimes.logger c) (IString text) xtype false w =
               (OpenRuntimes.logger c,
                Main.Write (OpenRuntimes.logger c) (IString text) xtype false w)).
  { intros. by rewrite OpenRuntimes_Write_unfold. }
  unfold OpenRuntimes.Log, OpenRuntimes.Error, rendered.
  split; [|split; [|split]].
  - intros Ho. destruct message; rewrite Hl; cbn [snd];
      exact (Main_Write_contents _ (IString _) LOGGER_TYPE_LOG false w Ho).
  - intros Ho. destruct message; rewrite Hl; cbn [snd];
      exact (Main_Write_contents _ (IString _) LOGGER_TYPE_ERROR false w Ho).
  - destruct message; rewrite Hl; by destruct c.
  - destruct message; rewrite Hl; by destruct c.
Qed.

(** X14 on the sample logger and a [Log] value. *)
Lemma X14_witness :
  os.contents (Some 1%nat)
    (OpenRuntimes.Log (H := sample_encoding) (OpenRuntimes.mkContext sample_logger)
                      (ILog (mkLog "m")) sample_world).2
  = "types.Log{Message:" +:+ dquote +:+ "m" +:+ dquote +:+ "}" +:+ newline.
Proof.
  apply (proj1 (X14_OpenRuntimes_facade (H := sample_encoding)
                  (OpenRuntimes.mkContext sample_logger) (ILog (mkLog "m")) sample_world)).
  exists 1%nat, (os.mkFile "/mnt/logs/x_logs.log" false "").
  split; [reflexivity|]. split; reflexivity.
Defined.

(** ** Closing, and giving the streams back *)

Section Closing.
Context `{Encoding}.

Lemma contents_Close f g w : os.contents f (os.Close g w).2 = os.contents f w.
Proof.
  unfold os.Close. destruct g as [gd|]; [|done].
  destruct (os.files w !! gd) as [gfile|] eqn:Hg; [|done].
  destruct (os.closed gfile) eqn:Hgc; [done|].
  destruct f as [fd|]; [|done]. cbn.
  destruct (decide (gd = fd)) as [->|Hne].
  - by rewrite lookup_insert_eq, Hg.
  - by rewrite lookup_insert_ne.
Qed.



End Closing.

(** X15.  [End] on an enabled logger closes both destinations and keeps
    every byte stored in them: afterwards neither accepts a write, and the
    contents of every file are what they were.  With the pointer receiver
    of part_001 the logger is disabled by the call, and [End] on a disabled
    logger changes nothing.  The value receiver of src/main.go does the
    same to the process. *)
Theorem X15_End_closes_and_keeps_bytes (l : Logger) (w : os.World) :
  Main.End l w = (OpenRuntimes.End l w).2
  ∧ (∀ f, os.contents f (OpenRuntimes.End l w).2 = os.contents f w)
  ∧ (Enabled l = true →
     Enabled (OpenRuntimes.End l w).1 = false
     ∧ ¬ os.is_open (StreamLogs l) (OpenRuntimes.End l w).2
     ∧ ¬ os.is_open (StreamErrors l) (OpenRuntimes.End l w).2)
  ∧ (Enabled l = false → OpenRuntimes.End l w = (l, w)).
Proof.
  unfold Main.End, OpenRuntimes.End.
  destruct (Enabled l) eqn:He; cbn [negb fst snd StreamLogs StreamErrors set_Enabled].
  - split; [done|]. split; [intros f; by rewrite !contents_Close|]. split; [|done].
    intros _. split; [done|]. split.
    + intros Ho. apply is_open_Close_inv in Ho.
      by apply not_open_after_Close in Ho.
    + apply not_open_after_Close.
  - split; [done|]. split; [done|]. split; [done|]. done.
Qed.


(** A successful [os.Pipe] allocates two descriptions that did not exist,
    leaves the write end open and empty, and changes nothing else. *)
Lemma Pipe_ok (w : os.World) :
  ∃ r wr w',
    os.Pipe true w = (Some (Some r, Some wr), w')
    ∧ os.files w !! r = None ∧ os.files w !! wr = None ∧ r ≠ wr
    ∧ os.files w' = <[wr := os.mkFile "|1" false ""]> (<[r := os.mkFile "|0" false ""]> (os.files w))
    ∧ os.Stdout w' = os.Stdout w ∧ os.Stderr w' = os.Stderr w
    ∧ os.logOutput w' = os.logOutput w.
Proof.
  unfold os.Pipe.
  set (r := fresh (dom (os.files w))).
  set (files1 := <[r := os.mkFile "|0" false ""]> (os.files w)).
  set (wr := fresh (dom files1)).
  exists r, wr, (os.with_files (<[wr := os.mkFile "|1" false ""]> files1) w).
  assert (Hr : os.files w !! r = None) by (apply not_elem_of_dom, is_fresh).
  assert (Hwr : files1 !! wr = None) by (apply not_elem_of_dom, is_fresh).
  assert (Hne : r ≠ wr).
  { intros E. rewrite <- E in Hwr. unfold files1 in Hwr.
    by rewrite lookup_insert_eq in Hwr. }
  split; [done|]. split; [done|]. split.
  { unfold files1 in Hwr. by rewrite lookup_insert_ne in Hwr. }
  done.
Qed.

(** A pipe does not change what any handle stores. *)
Lemma contents_Pipe (ok : bool) (f : os.handle) (w : os.World) :
  os.contents f (os.Pipe ok w).2 = os.contents f w.
Proof.
  destruct ok; [|done].
  destruct (Pipe_ok w) as (r & wr & w' & -> & Hr & Hwr & Hne & Hf & _).
  cbn [snd]. destruct f as [fd|]; [|done]. unfold os.contents. rewrite Hf.
  destruct (decide (fd = wr)) as [->|Hn1].
  { by rewrite lookup_insert_eq, Hwr. }
  rewrite lookup_insert_ne by done.
  destruct (decide (fd = r)) as [->|Hn2].
  { by rewrite lookup_insert_eq, Hr. }
  by rewrite lookup_insert_ne.
Qed.




(** X26.  When a pipe cannot be made, [OverrideNativeLogs] of part_001's
    first document returns the error [could not prepare log capturing] and
    the capture does not start: the process's standard output, standard
    error and log output are what they were, and every handle stores what
    it stored.  The logger has by then recorded the two standard streams
    as its cached streams; when it is the second pipe that fails, the
    writer of the first pipe is kept in the logger and left open. *)
Theorem X26_Override_failure_keeps_streams (l : Logger) (okLogs okErrors : bool)
    (w : os.World) :
  let o := OpenRuntimes.OverrideNativeLogs l okLogs okErrors w in
  (o.1.2 = None ∨ o.1.2 = Some "could not prepare log capturing")
  ∧ (o.1.2 = None ↔ okLogs = true ∧ okErrors = true)
  ∧ NativeLogsCache o.1.1 = os.Stdout w ∧ NativeErrorsCache o.1.1 = os.Stderr w
  ∧ (∀ f, os.contents f o.2 = os.contents f w)
  ∧ (o.1.2 ≠ None →
     os.Stdout o.2 = os.Stdout w ∧ os.Stderr o.2 = os.Stderr w
     ∧ os.logOutput o.2 = os.logOutput w)
  ∧ (okLogs = true → okErrors = false → os.is_open (WriterLogs o.1.1) o.2).
Proof.
  cbv zeta.
  unfold OpenRuntimes.OverrideNativeLogs.
  destruct okLogs.
  - destruct (Pipe_ok w) as (r1 & wr1 & w1 & Hp1 & Hr1 & Hwr1 & Hne1 & Hf1 & Ho1 & He1 & Hl1).
    rewrite Hp1.
    pose proof (λ f, contents_Pipe true f w) as E1. rewrite Hp1 in E1. cbn [snd] in E1.
    assert (Hw1 : os.is_open (Some wr1) w1).
    { exists wr1, (os.mkFile "|1" false ""). by rewrite Hf1, lookup_insert_eq. }
    destruct okErrors.
    + destruct (Pipe_ok w1) as (r2 & wr2 & w2 & Hp2 & Hr2 & Hwr2 & Hne2 & Hf2 & Ho2 & He2 & Hl2).
      rewrite Hp2.
      pose proof (λ f, contents_Pipe true f w1) as E2. rewrite Hp2 in E2. cbn [snd] in E2.
      cbn [fst snd]. split; [by left|]. split; [done|]. split; [done|]. split; [done|].
      split. { intros f. rewrite <- E1, <- E2. by destruct f. }
      split; [done|]. intros _; discriminate.
    + cbn [os.Pipe fst snd]. split; [by right|]. split; [by split; [|intros [_ ?]]|].
      split; [done|]. split; [done|]. split; [done|]. split; [done|]. by intros _ _.
  - cbn [os.Pipe fst snd]. split; [by right|]. split; [by split; [|intros [? _]]|].
    split; [done|]. split; [done|]. split; [done|]. split; [done|]. intros; discriminate.
Qed.

(** ** The notice, over a whole run of native writes *)

Section NoticeOnce.
Context `{Encoding}.

Lemma run_cons c calls lw :
  OpenRuntimes_run (c :: calls) lw = OpenRuntimes_run calls (OpenRuntimes_step lw c).
Proof. reflexivity. Qed.

(** Once the latch is up, native writes store their lines and nothing else. *)
Lemma latched_native_writes l messages w :
  IncludesNativeInfo l = true →
  os.is_open (StreamLogs l) w →
  OpenRuntimes_run (native_log_writes messages) (l, w) =
    (l, (OpenRuntimes_run (native_log_writes messages) (l, w)).2)
  ∧ os.contents (StreamLogs l) (OpenRuntimes_run (native_log_writes messages) (l, w)).2 =
      os.contents (StreamLogs l) w +:+ join (predicted_line <$> messages).
Proof.
  intros Hup. revert w. induction messages as [|m ms IH]; intros w Ho.
  - cbn. by rewrite string_app_nil_r.
  - unfold native_log_writes in *. rewrite fmap_cons, run_cons.
    cbn [OpenRuntimes_step fst snd]. rewrite OpenRuntimes_Write_unfold.
    assert (Hfn : first_native l true = false) by (unfold first_native; by rewrite Hup).
    rewrite !Hfn.
    assert (Ho' : os.is_open (StreamLogs l) (Main.Write l m LOGGER_TYPE_LOG true w))
      by (by apply is_open_after_Main_Write).
    destruct (IH _ Ho') as [Hl Hc]. split; [by rewrite Hl at 1|].
    rewrite Hc.
    pose proof (Main_Write_contents l m LOGGER_TYPE_LOG true w Ho) as Hw.
    unfold emitted, first_native in Hw. rewrite Hup in Hw.
    change (os.contents (StreamLogs l) (Main.Write l m LOGGER_TYPE_LOG true w)
            = os.contents (StreamLogs l) w +:+ predicted_line m) in Hw.
    rewrite Hw. cbn [fmap list_fmap join foldr]. by rewrite string_app_assoc.
Qed.

End NoticeOnce.

(** X17.  With the pointer receiver of part_001, a run of native writes of
    kind log on a logger whose latch is down and whose log file is open
    stores the notice once, before the first line, and then the lines in
    call order; the latch is up afterwards.  An empty run stores nothing
    and leaves the latch down. *)
Theorem X17_notice_once_per_logger `{Encoding} (l : Logger)
    (messages : list (interface other)) (w : os.World) :
  IncludesNativeInfo l = false →
  os.is_open (StreamLogs l) w →
  let r := OpenRuntimes_run (native_log_writes messages) (l, w) in
  os.contents (StreamLogs l) r.2 =
    os.contents (StreamLogs l) w
      +:+ (if messages is [] then "" else native_notice)
      +:+ join (predicted_line <$> messages)
  ∧ IncludesNativeInfo r.1 = (if messages is [] then false else true).
Proof.
  intros Hdown Ho. cbv zeta. destruct messages as [|m ms].
  - cbn. split; [by rewrite string_app_nil_r|done].
  - unfold native_log_writes in *. rewrite fmap_cons, run_cons.
    cbn [OpenRuntimes_step fst snd]. rewrite OpenRuntimes_Write_unfold.
    assert (Hfn : first_native l true = true) by (unfold first_native; by rewrite Hdown).
    rewrite !Hfn.
    set (l1 := set_IncludesNativeInfo true l).
    assert (Ho' : os.is_open (StreamLogs l1) (Main.Write l m LOGGER_TYPE_LOG true w))
      by (by apply is_open_after_Main_Write).
    destruct (latched_native_writes l1 ms _ eq_refl Ho') as [Hl Hc].
    unfold native_log_writes in *.
    rewrite Hl. cbn [fst snd]. split; [|done].
    change (StreamLogs l1) with (StreamLogs l) in Hc. rewrite Hc.
    pose proof (Main_Write_contents l m LOGGER_TYPE_LOG true w Ho) as Hw.
    unfold emitted, first_native in Hw. rewrite Hdown in Hw. cbn [negb andb] in Hw.
    change (os.contents (StreamLogs l) (Main.Write l m LOGGER_TYPE_LOG true w)
            = os.contents (StreamLogs l) w +:+ native_notice +:+ predicted_line m) in Hw.
    rewrite Hw. cbn [fmap list_fmap join foldr]. by rewrite !string_app_assoc.
Qed.

(** X17 on the sample logger and two strings. *)
Lemma X17_witness :
  os.contents (Some 1%nat)
    (OpenRuntimes_run (H := sample_encoding)
       (native_log_writes (H := sample_encoding) [IString "a"; IString "b"])
       (sample_logger, sample_world)).2
  = native_notice +:+ "ab".
Proof.
  apply (X17_notice_once_per_logger (H := sample_encoding) sample_logger
           [IString "a"; IString "b"] sample_world).
  - reflexivity.
  - exists 1%nat, (os.mkFile "/mnt/logs/x_logs.log" false "").
    split; [reflexivity|]. split; reflexivity.
Defined.

(** ** Identifiers *)

Section IdentifierFacts.

Lemma FormatInt16_not_empty i : strconv.FormatInt16 i ≠ "".
Proof.
  unfold strconv.FormatInt16. destruct (Z.to_hex_int i) as [d|d]; cbn; [|done].
  destruct d; done.
Qed.

Lemma FormatInt10_not_empty i : strconv.FormatInt10 i ≠ "".
Proof.
  unfold strconv.FormatInt10. destruct (Z.to_int i) as [d|d]; cbn; [|done].
  destruct d; done.
Qed.

Lemma app_not_empty (a b : string) : a ≠ "" → a +:+ b ≠ "".
Proof. destruct a; [done|]. intros _. discriminate. Qed.

Lemma length_app (a b : string) :
  String.length (a +:+ b) = (String.length a + String.length b)%nat.
Proof.
  induction a as [|x a IH]; [done|].
  change (S (String.length (a +:+ b)) = S (String.length a + String.length b)).
  by rewrite IH.
Qed.

Lemma length_join_choices pads :
  Forall (λ p, p ∈ OpenRuntimes.choices) pads → String.length (join pads) = length pads.
Proof.
  induction 1 as [|p pads Hp _ IH]; [done|].
  cbn [join foldr length]. rewrite length_app. fold (join pads). rewrite IH.
  unfold OpenRuntimes.choices in Hp.
  repeat (apply elem_of_cons in Hp as [->|Hp]; [done|]).
  by apply elem_of_nil in Hp.
Qed.

End IdentifierFacts.

(** X18.  [generateId] of part_001 returns the clock in microseconds
    (nanoseconds divided by 1000), written in lower-case hexadecimal,
    followed by exactly [padding] characters, each one of 0-9 and a-f; for
    a padding of zero or less nothing is added.  The identifier is never
    empty, its length is that of the timestamp plus the padding, and no
    file is touched. *)
Theorem X18_generateId_shape (l : Logger) (padding : Z) (w : os.World) :
  let hex := strconv.FormatInt16 (Z.quot (os.now w) 1000) in
  let r := OpenRuntimes.generateId l padding w in
  (∃ pads : list string,
      length pads = Z.to_nat padding
      ∧ Forall (λ p, p ∈ OpenRuntimes.choices) pads
      ∧ r.1 = hex +:+ join pads)
  ∧ String.length r.1 = (String.length hex + Z.to_nat padding)%nat
  ∧ r.1 ≠ ""
  ∧ os.files r.2 = os.files w.
Proof.
  cbv zeta.
  assert (He : ∃ pads : list string,
             length pads = Z.to_nat padding
             ∧ Forall (λ p, p ∈ OpenRuntimes.choices) pads
             ∧ (OpenRuntimes.generateId l padding w).1
               = strconv.FormatInt16 (Z.quot (os.now w) 1000) +:+ join pads).
  { unfold OpenRuntimes.generateId. destruct (decide (padding > 0)) as [Hp|Hp].
    - apply pad_loop_appends.
    - exists []. cbn. split; [lia|]. split; [constructor|]. by rewrite string_app_nil_r. }
  destruct He as (pads & Hlen & Hall & Heq). split; [by exists pads|].
  rewrite Heq. split; [|split].
  - by rewrite length_app, length_join_choices, Hlen.
  - apply app_not_empty, FormatInt16_not_empty.
  - apply generateId_keeps_files.
Qed.

Example X18_sample :
  (OpenRuntimes.generateId sample_logger 3 sample_world).1 = "60a24181e4000a00"
  ∧ (OpenRuntimes.generateId sample_logger 0 sample_world).1 = "60a24181e4000".
Proof. vm_compute. split; reflexivity. Qed.

Section IdentifierInvariant.

Lemma open_streams_logger logger w :
  (open_streams logger w).1.1 = Logger_zero
  ∨ (Enabled (open_streams logger w).1.1 = Enabled logger
     ∧ Id (open_streams logger w).1.1 = Id logger).
Proof.
  destruct (open_streams_cases logger w) as [[_ He]|[(_ & _ & He)|(Hl & Hin & _)]].
  - left. by rewrite He.
  - left. by rewrite He.
  - right. by rewrite (open_streams_ok _ _ Hl Hin).
Qed.

Lemma _GenerateId_not_empty l w : (Main._GenerateId l w).1 ≠ "".
Proof.
  unfold Main._GenerateId. destruct (rand.Intn 1000 w). cbn.
  apply app_not_empty, FormatInt10_not_empty.
Qed.

End IdentifierInvariant.

(** X19.  Whatever the status, the identifier, the environment and the
    outcome of opening the files, the logger that [NewLogger] returns
    (src/main.go or part_001) is enabled exactly when its identifier is not
    empty: an enabled logger never has the empty identifier, so its files
    are never /mnt/logs/_logs.log and /mnt/logs/_errors.log, and a disabled
    or failed one never carries an identifier. *)
Theorem X19_enabled_iff_identifier (status id : string) (w : os.World) :
  let open := (OpenRuntimes.NewLogger status id w).1.1 in
  let main := (Main.NewLogger status id w).1.1 in
  (Enabled open = true ↔ Id open ≠ "") ∧ (Enabled main = true ↔ Id main ≠ "").
Proof.
  cbv zeta. rewrite OpenRuntimes_NewLogger_unfold, Main_NewLogger_unfold.
  assert (Hk : ∀ i w1, i ≠ "" →
             let l := (open_streams (set_Id i (set_Enabled true Logger_zero)) w1).1.1 in
             Enabled l = true ↔ Id l ≠ "").
  { intros i w1 Hi. cbv zeta.
    destruct (open_streams_logger (set_Id i (set_Enabled true Logger_zero)) w1)
      as [->|[-> ->]]; cbn; split; done. }
  destruct (decide (status = "" ∨ status = "enabled")); [|by split; cbn; split].
  split.
  - apply Hk. destruct (decide (id = "")); [|done].
    destruct (decide (os.Getenv "OPEN_RUNTIMES_ENV" w = "development")); [done|].
    pose proof (X := pad_loop_appends 7 (strconv.FormatInt16 (Z.quot (os.now w) 1000)) w).
    destruct X as (pads & _ & _ & Heq).
    change ((OpenRuntimes.generateId (set_Enabled true Logger_zero) 7 w).1)
      with ((OpenRuntimes.pad_loop 7 (strconv.FormatInt16 (Z.quot (os.now w) 1000)) w).1).
    rewrite Heq. apply app_not_empty, FormatInt16_not_empty.
  - apply Hk. destruct (decide (os.Getenv "OPEN_RUNTIMES_ENV" w = "development")); [done|].
    destruct (decide (id = "")); [|done]. apply _GenerateId_not_empty.
Qed.

(** ** The facade of the second document of part_001 *)

(** X20.  On a context of the second document of part_001 whose two files
    are open and different, any interleaving of [Log] and [Error] calls
    leaves in the log file what it held followed by the resolved lines of
    the [Log] calls, in call order and with nothing between them, and in the
    error file what it held followed by those of the [Error] calls. *)
Theorem X20_Types_facade_routes `{Encoding} (c : Types.Context)
    (calls : list (bool * interface other)) (w : os.World) :
  os.is_open (StreamLogs (Types.Logger_ c)) w →
  os.is_open (StreamErrors (Types.Logger_ c)) w →
  StreamLogs (Types.Logger_ c) ≠ StreamErrors (Types.Logger_ c) →
  os.contents (StreamLogs (Types.Logger_ c)) (Types_calls c calls w) =
    os.contents (StreamLogs (Types.Logger_ c)) w
      +:+ join (predicted_line ∘ snd <$> filter (λ k, k.1 = false) calls)
  ∧ os.contents (StreamErrors (Types.Logger_ c)) (Types_calls c calls w) =
    os.contents (StreamErrors (Types.Logger_ c)) w
      +:+ join (predicted_line ∘ snd <$> filter (λ k, k.1 = true) calls).
Proof.
  intros Hl He Hne. revert w Hl He.
  induction calls as [|[kind m] calls IH]; intros w Hl He.
  - cbn. by rewrite !string_app_nil_r.
  - cbn [Types_calls fold_left fst snd].
    match goal with |- context [fold_left ?f calls ?w'] =>
      change (fold_left f calls w') with (Types_calls c calls w') end.
    rewrite !filter_cons. cbn [fst].
    pose proof (Main_Write_contents (Types.Logger_ c) m LOGGER_TYPE_LOG false w Hl) as Hwl.
    change (os.contents (StreamLogs (Types.Logger_ c)) (Types.Log c m w)
            = os.contents (StreamLogs (Types.Logger_ c)) w +:+ predicted_line m) in Hwl.
    pose proof (Main_Write_contents (Types.Logger_ c) m LOGGER_TYPE_ERROR false w He) as Hwe.
    change (os.contents (StreamErrors (Types.Logger_ c)) (Types.Error c m w)
            = os.contents (StreamErrors (Types.Logger_ c)) w +:+ predicted_line m) in Hwe.
    destruct kind.
    + rewrite decide_False by done. rewrite decide_True by done.
      destruct (IH (Types.Error c m w)) as [-> ->];
        [by apply is_open_after_Main_Write|by apply is_open_after_Main_Write|].
      rewrite Hwe. split.
      * f_equal. by apply (contents_Main_Write_other _ _ m LOGGER_TYPE_ERROR).
      * cbn. by rewrite string_app_assoc.
    + rewrite decide_True by done. rewrite decide_False by done.
      destruct (IH (Types.Log c m w)) as [-> ->];
        [by apply is_open_after_Main_Write|by apply is_open_after_Main_Write|].
      rewrite Hwl. split.
      * cbn. by rewrite string_app_assoc.
      * f_equal. apply (contents_Main_Write_other _ _ m LOGGER_TYPE_LOG). by apply not_eq_sym.
Qed.

(** X20 on the sample logger: an error between two logs. *)
Lemma X20_witness :
  let w := Types_calls (H := sample_encoding) (Types.mkContext sample_logger)
             [(false, IString "a"); (true, IString "e"); (false, IString "b")] sample_world in
  os.contents (Some 1%nat) w = "ab" ∧ os.contents (Some 2%nat) w = "e".
Proof.
  cbv zeta.
  apply (X20_Types_facade_routes (H := sample_encoding) (Types.mkContext sample_logger)
           [(false, IString "a"); (true, IString "e"); (false, IString "b")] sample_world).
  - exists 1%nat, (os.mkFile "/mnt/logs/x_logs.log" false "").
    split; [reflexivity|]. split; reflexivity.
  - exists 2%nat, (os.mkFile "/mnt/logs/x_errors.log" false "").
    split; [reflexivity|]. split; reflexivity.
  - discriminate.
Defined.

(** ** Reading the body of a request *)

Section Bodies.
Context `{Decoding}.

Lemma has_binary_prefix_true contentType binaryTypes :
  has_binary_prefix contentType binaryTypes = true
  ↔ ∃ binaryType, binaryType ∈ binaryTypes ∧ String.prefix binaryType contentType = true.
Proof.
  induction binaryTypes as [|b rest IH]; cbn.
  - split; [done|]. intros (? & Hin & _). by apply elem_of_nil in Hin.
  - destruct (String.prefix b contentType) eqn:Hp.
    + split; [|done]. intros _. exists b. split; [apply elem_of_cons; by left|done].
    + rewrite IH. split.
      * intros (x & Hin & Hx). exists x. split; [apply elem_of_cons; by right|done].
      * intros (x & Hin & Hx). apply elem_of_cons in Hin as [->|Hin]; [congruence|].
        by exists x.
Qed.

Lemma Body_agree r (h : gmap nat (gmap string string)) :
  OpenRuntimes.ContextRequest.Body r h = Types.Request.Body r h.
Proof.
  unfold OpenRuntimes.ContextRequest.Body, Types.Request.Body,
    OpenRuntimes.ContextRequest.BodyJson, Types.Request.BodyJson,
    OpenRuntimes.ContextRequest.BodyBinary, Types.Request.BodyBinary.
  destruct (decide (default "" (hmap.view (Req.Headers r) h !! "content-type")
                    = "application/json")); [|done].
  destruct (decide (String.length (Req.bodyBinary r) = 0%nat)) as [Hz|Hz].
  - by rewrite decide_False by (by intros ?).
  - rewrite decide_True by done. by destruct (json_Unmarshal (Req.bodyBinary r)).
Qed.

End Bodies.

(** X21.  The two generations of the request in part_001 read the body the
    same way: for every request and every header map, [Body] of the
    openruntimes [ContextRequest] and [Body] of the types [Request] return
    the same value, although the first goes through the error of its
    [BodyJson] and the second through a [BodyJson] that cannot fail. *)
Theorem X21_Body_same_in_both_generations `{Decoding} (r : Req.Request)
    (h : gmap nat (gmap string string)) :
  OpenRuntimes.ContextRequest.Body r h = Types.Request.Body r h
  ∧ OpenRuntimes.ContextRequest.BodyText r = Types.Request.BodyText r
  ∧ OpenRuntimes.ContextRequest.BodyRaw r = Types.Request.BodyRaw r
  ∧ (Types.Request.BodyJson r =
       match OpenRuntimes.ContextRequest.BodyJson r with
       | inl o => if decide (String.length (Req.bodyBinary r) = 0%nat) then empty_object else o
       | inr _ => empty_object
       end).
Proof.
  split; [apply Body_agree|]. split; [done|]. split; [done|].
  unfold Types.Request.BodyJson, OpenRuntimes.ContextRequest.BodyJson,
    OpenRuntimes.ContextRequest.BodyBinary, Types.Request.BodyBinary.
  destruct (decide (String.length (Req.bodyBinary r) = 0%nat)) as [Hz|Hz].
  - rewrite decide_False by (by intros ?). by destruct (json_Unmarshal (Req.bodyBinary r)).
  - rewrite decide_True by done. by destruct (json_Unmarshal (Req.bodyBinary r)).
Qed.

(** X22.  When the content-type header is exactly application/json, [Body]
    never fails and always returns an object: the empty object for an empty
    body, without calling the decoder, the empty object again for a body
    the decoder rejects, and the decoded object otherwise. *)
Theorem X22_Body_json `{Decoding} (r : Req.Request) (h : gmap nat (gmap string string)) :
  hmap.view (Req.Headers r) h !! "content-type" = Some "application/json" →
  Types.Request.Body r h =
    BodyMap (if decide (String.length (Req.bodyBinary r) = 0%nat) then empty_object
             else default empty_object (json_Unmarshal (Req.bodyBinary r)))
  ∧ OpenRuntimes.ContextRequest.Body r h = Types.Request.Body r h.
Proof.
  intros Hct. split; [|apply Body_agree].
  unfold Types.Request.Body, Types.Request.BodyJson, Types.Request.BodyBinary.
  rewrite Hct. cbn [default from_option id]. rewrite decide_True by done.
  destruct (decide (String.length (Req.bodyBinary r) = 0%nat)) as [Hz|Hz].
  - by rewrite decide_False by (by intros ?).
  - rewrite decide_True by done. by destruct (json_Unmarshal (Req.bodyBinary r)).
Qed.

(** X22 on a body the sample decoder rejects. *)
Lemma X22_witness :
  Types.Request.Body (H := sample_decoding) (sample_request "not json")
                     (sample_headers "application/json")
  = BodyMap (H := sample_decoding) ∅.
Proof.
  apply (X22_Body_json (H := sample_decoding) (sample_request "not json")
           (sample_headers "application/json")).
  reflexivity.
Defined.

(** X23.  When the content type starts with application/, audio/, font/,
    image/ or video/ and is not exactly application/json, [Body] returns
    the body bytes as they are and never calls the decoder.  A JSON content
    type that carries a parameter, such as
    application/json; charset=utf-8, is such a case. *)
Theorem X23_Body_binary `{Decoding} (r : Req.Request) (h : gmap nat (gmap string string))
    (contentType binaryType : string) :
  hmap.view (Req.Headers r) h !! "content-type" = Some contentType →
  contentType ≠ "application/json" →
  binaryType ∈ ["application/"; "audio/"; "font/"; "image/"; "video/"] →
  String.prefix binaryType contentType = true →
  Types.Request.Body r h = BodyBytes (Req.bodyBinary r)
  ∧ OpenRuntimes.ContextRequest.Body r h = BodyBytes (Req.bodyBinary r).
Proof.
  intros Hct Hne Hin Hp. rewrite Body_agree.
  cut (Types.Request.Body r h = BodyBytes (Req.bodyBinary r)); [by split|].
  unfold Types.Request.Body, Types.Request.BodyBinary.
  rewrite Hct. cbn [default from_option id]. rewrite decide_False by done.
  assert (Hb : has_binary_prefix contentType Types.Request.binaryTypes = true)
    by (apply has_binary_prefix_true; by exists binaryType).
  by rewrite Hb.
Qed.

(** X23 on a JSON body sent with a charset parameter. *)
Lemma X23_witness :
  Types.Request.Body (H := sample_decoding) (sample_request "{}")
                     (sample_headers "application/json; charset=utf-8")
  = BodyBytes (H := sample_decoding) "{}".
Proof.
  apply (X23_Body_binary (H := sample_decoding) (sample_request "{}")
           (sample_headers "application/json; charset=utf-8")
           "application/json; charset=utf-8" "application/").
  - reflexivity.
  - discriminate.
  - apply elem_of_cons. left. reflexivity.
  - reflexivity.
Defined.

(** X24.  When the request has no content-type header, be it that the
    header map is nil or that the key is missing, or when the content type
    starts with none of the five binary prefixes and is not
    application/json, [Body] returns the body as text, unchanged. *)
Theorem X24_Body_text `{Decoding} (r : Req.Request) (h : gmap nat (gmap string string)) :
  (hmap.view (Req.Headers r) h !! "content-type" = None
   ∨ ∃ contentType,
       hmap.view (Req.Headers r) h !! "content-type" = Some contentType
       ∧ contentType ≠ "application/json"
       ∧ ∀ binaryType, binaryType ∈ ["application/"; "audio/"; "font/"; "image/"; "video/"] →
                       String.prefix binaryType contentType = false) →
  Types.Request.Body r h = BodyString (Req.bodyBinary r)
  ∧ OpenRuntimes.ContextRequest.Body r h = BodyString (Req.bodyBinary r).
Proof.
  intros Hct. rewrite Body_agree.
  cut (Types.Request.Body r h = BodyString (Req.bodyBinary r)); [by split|].
  unfold Types.Request.Body, Types.Request.BodyText, Types.Request.BodyBinary.
  destruct Hct as [->|(contentType & -> & Hne & Hno)]; cbn [default from_option id].
  - reflexivity.
  - rewrite decide_False by done.
    destruct (has_binary_prefix contentType Types.Request.binaryTypes) eqn:Hb; [|done].
    apply has_binary_prefix_true in Hb as (b & Hin & Hp).
    rewrite (Hno b Hin) in Hp. discriminate.
Qed.

(** X24 on a request whose header map is nil. *)
Lemma X24_witness :
  Types.Request.Body (H := sample_decoding)
    (Req.mkRequest "hello" None "GET" "" "" 0 "" "" "" None) ∅
  = BodyString (H := sample_decoding) "hello".
Proof.
  apply (X24_Body_text (H := sample_decoding)
           (Req.mkRequest "hello" None "GET" "" "" 0 "" "" "" None) ∅).
  left. reflexivity.
Defined.

(** [SetBodyBinary] replaces the body and nothing else: afterwards
    [BodyBinary], [BodyText] and [BodyRaw] all return the bytes that were
    set, in both generations of part_001; the headers, the query and the
    other fields are those of the request before; and of two calls in a row
    only the second shows. *)
Lemma SetBodyBinary_round_trip `{Decoding} (r : Req.Request) (b b' : string) :
  let r1 := Types.Request.SetBodyBinary r b in
  Types.Request.BodyBinary r1 = b ∧ Types.Request.BodyText r1 = b
  ∧ Types.Request.BodyRaw r1 = b
  ∧ OpenRuntimes.ContextRequest.BodyRaw (OpenRuntimes.ContextRequest.SetBodyBinary r b) = b
  ∧ Req.Headers r1 = Req.Headers r ∧ Req.Query r1 = Req.Query r
  ∧ Req.Method r1 = Req.Method r ∧ Req.Url r1 = Req.Url r ∧ Req.Path r1 = Req.Path r
  ∧ Req.Port r1 = Req.Port r ∧ Req.Scheme r1 = Req.Scheme r ∧ Req.Host r1 = Req.Host r
  ∧ Req.QueryString r1 = Req.QueryString r
  ∧ Types.Request.SetBodyBinary r1 b' = Types.Request.SetBodyBinary r b'
  ∧ Types.Request.SetBodyBinary r (Types.Request.BodyBinary r) = r.
Proof. cbv zeta. destruct r. repeat split. Qed.

(** ** A JSON response that can be serialized *)

(** X25.  When the value can be serialized, [Json] of src/main.go (and of
    part_000, which has the same text) answers with the JSON text as body,
    with the status it was given, or 200 when that is 0, and with headers
    that show the caller's entries with content-type set to
    application/json: a content type the caller had set is replaced, the
    other entries are kept, and nil counts as no headers. *)
Theorem X25_Main_Json_success `{Encoding} (bodyStruct : interface other) (jsonText : string)
    (statusCode : Z) (headers : hmap.ref) (h : gmap nat (gmap string string)) :
  json_Marshal bodyStruct = Some jsonText →
  (∀ a, headers = Some a → is_Some (h !! a)) →
  let rh := Main.Json bodyStruct statusCode headers h in
  Main.Body rh.1 = jsonText
  ∧ Main.StatusCode rh.1 = (if decide (statusCode = 0) then 200 else statusCode)
  ∧ hmap.view (Main.Headers rh.1) rh.2 =
      <["content-type" := "application/json"]> (hmap.view headers h)
  ∧ Legacy.Json bodyStruct statusCode headers h = rh.
Proof.
  intros Hm Hvalid. cbv zeta. unfold Legacy.Json, Main.Json, Main.Send, hmap.make.
  rewrite Hm.
  assert (Hst : (if decide ((if decide (statusCode = 0) then 200 else statusCode) = 0)
                 then 200 else if decide (statusCode = 0) then 200 else statusCode)
                = (if decide (statusCode = 0) then 200 else statusCode)).
  { destruct (decide (statusCode = 0)) as [->|Hne]; [done|].
    by destruct (decide (statusCode = 0)). }
  destruct headers as [a|]; cbn [fst snd Main.Body Main.StatusCode Main.Headers].
  - destruct (Hvalid a eq_refl) as [m Hma].
    split; [done|]. split; [done|]. split; [|done].
    rewrite (view_store _ _ _ _ _ Hma). cbn. by rewrite Hma.
  - split; [done|]. split; [done|]. split; [|done].
    by rewrite (view_store _ _ _ ∅) by apply lookup_insert_eq.
Qed.

(** X25 on a number, a status left at 0 and a caller who had set another
    content type. *)
Lemma X25_witness :
  let rh := Main.Json (H := sample_encoding) (IOther (Num 7)) 0 (Some 0%nat)
                      (sample_headers "text/plain") in
  Main.Body rh.1 = "7" ∧ Main.StatusCode rh.1 = 200
  ∧ hmap.view (Main.Headers rh.1) rh.2 !! "content-type" = Some "application/json".
Proof.
  cbv zeta.
  destruct (X25_Main_Json_success (H := sample_encoding) (IOther (Num 7)) "7" 0 (Some 0%nat)
              (sample_headers "text/plain")) as (Hb & Hs & Hv & _).
  { reflexivity. }
  { intros a [= <-]. unfold sample_headers. rewrite lookup_insert_eq. eauto. }
  split; [exact Hb|]. split; [exact Hs|]. rewrite Hv. reflexivity.
Defined.
